(** * The plan / generate / apply / verify loop of [ai_staff_loop.py]

    A shallow embedding of [.github/scripts/ai_staff_loop.py] and the
    properties of its control loop.

    Python text is modelled as [string]; Python values that come out of
    [json.loads] as the inductive [pyval]; the process environment (the two
    HTTP endpoints, the shell, [git apply], the [json] module) as a record
    of oracles [Env]; and the script itself as computations in a state and
    exception monad over the [World] (files, working tree, event log).

    What is taken for granted: a write to a file and [time.sleep] do not
    fail; characters are ASCII; a file reads as it was written.  What
    [git reset --hard] and a successful [git apply] do to the directory
    (the files the script sees, and what the working tree holds on top
    of the baseline revision) is for the environment to say; a failed
    [git apply] changes nothing, and the other git commands the script
    runs only read.  Everything else that can go wrong (a missing
    [input.md], a failing shell command, a transport error, an HTTP
    error status, an answer that is not JSON or not of the expected
    shape) is an exception of the model. *)

From Stdlib Require Import String Ascii List ZArith Lia Bool.
From Stdlib Require Import DecimalString.
Import ListNotations.
Local Open Scope string_scope.
Local Open Scope Z_scope.
Set Warnings "-register-all".

(** ** Python string operations used by the script *)

Module PyStr.

Definition len (s : string) : Z := Z.of_nat (String.length s).

(** [s.startswith(p)] *)
Definition startswith (s p : string) : bool := String.prefix p s.

(** [s.find(c)] for a one-character needle: index of the first
    occurrence, [-1] when there is none. *)
Fixpoint find_from (c : ascii) (s : string) (i : Z) : Z :=
  match s with
  | EmptyString => -1
  | String a s' => if Ascii.eqb a c then i else find_from c s' (i + 1)
  end.

Definition find (s : string) (c : ascii) : Z := find_from c s 0.

(** [s.rfind(c)]: index of the last occurrence, [-1] when there is none. *)
Fixpoint rfind_from (c : ascii) (s : string) (i : Z) (last : Z) : Z :=
  match s with
  | EmptyString => last
  | String a s' =>
      rfind_from c s' (i + 1) (if Ascii.eqb a c then i else last)
  end.

Definition rfind (s : string) (c : ascii) : Z := rfind_from c s 0 (-1).

(** Python's normalisation of one slice bound: a negative bound counts
    from the end, and the result is clamped to [0 .. len]. *)
Definition clamp (n k : Z) : Z :=
  let k' := if k <? 0 then k + n else k in
  if k' <? 0 then 0 else if n <? k' then n else k'.

(** [s[start:stop]] *)
Definition slice (s : string) (start stop : Z) : string :=
  let n := len s in
  let a := clamp n start in
  let b := clamp n stop in
  if a <? b then String.substring (Z.to_nat a) (Z.to_nat (b - a)) s
  else "".

(** Characters removed by [str.strip()] (ASCII range):
    TAB, LF, VT, FF, CR, FS, GS, RS, US and the space. *)
Definition isspace (a : ascii) : bool :=
  let n := Z.of_nat (nat_of_ascii a) in
  ((9 <=? n) && (n <=? 13)) || ((28 <=? n) && (n <=? 32)).

Fixpoint lstrip (s : string) : string :=
  match s with
  | EmptyString => EmptyString
  | String a s' => if isspace a then lstrip s' else s
  end.

Fixpoint rstrip (s : string) : string :=
  match s with
  | EmptyString => EmptyString
  | String a s' =>
      match rstrip s' with
      | EmptyString => if isspace a then EmptyString else String a EmptyString
      | r => String a r
      end
  end.

(** [s.strip()] *)
Definition strip (s : string) : string := rstrip (lstrip s).

(** [sep.join(parts)] *)
Definition join (sep : string) (parts : list string) : string :=
  String.concat sep parts.

(** [str(n)] for an [int] *)
Definition of_int (n : Z) : string := NilZero.string_of_int (Z.to_int n).

(** [x or default] on strings: the empty string is falsy. *)
Definition or_else (s default : string) : string :=
  match s with EmptyString => default | _ => s end.

(** [needle in hay] *)
Fixpoint contains (hay needle : string) : bool :=
  String.prefix needle hay ||
  match hay with
  | EmptyString => false
  | String _ hay' => contains hay' needle
  end.

End PyStr.

(** ** Python values

    The values [json.loads] can return.  A [dict] keeps its insertion
    order, so it is an association list; a [float] is kept as its [repr]. *)

Inductive pyval : Type :=
| PNone
| PBool (b : bool)
| PInt (n : Z)
| PFloat (repr : string)
| PStr (s : string)
| PList (items : list pyval)
| PDict (entries : list (string * pyval)).

(** The exceptions that can reach the script. *)
Inductive exn : Type :=
| FileNotFoundError
| CalledProcessError (cmd : string)
| RequestException            (* transport failure or timeout of requests.post *)
| HTTPError (status : Z)      (* raise_for_status *)
| JSONDecodeError             (* Response.json *)
| AttributeError
| TypeError.

(** Pure Python expressions that can raise are in the error monad
    [exn + A]; [inl] is a raised exception. *)
Module Py.

Definition bind {A B} (c : exn + A) (f : A -> exn + B) : exn + B :=
  match c with inl e => inl e | inr a => f a end.

Fixpoint lookup (k : string) (d : list (string * pyval)) : option pyval :=
  match d with
  | [] => None
  | (k', v) :: d' => if String.eqb k' k then Some v else lookup k d'
  end.

(** [obj.get(key, default)]: only a dict has the method. *)
Definition get (obj : pyval) (key : string) (default : pyval) : exn + pyval :=
  match obj with
  | PDict d => inr (match lookup key d with Some v => v | None => default end)
  | _ => inl AttributeError
  end.

(** [v == "literal"]: a value equals a string literal only when it is
    that very string. *)
Definition eq_str (v : pyval) (lit : string) : bool :=
  match v with
  | PStr s => String.eqb s lit
  | _ => false
  end.

Fixpoint chars (s : string) : list pyval :=
  match s with
  | EmptyString => []
  | String a s' => PStr (String a EmptyString) :: chars s'
  end.

(** [for x in v]: a list yields its items, a string its characters, a
    dict its keys; the other values are not iterable. *)
Definition iter (v : pyval) : exn + list pyval :=
  match v with
  | PList l => inr l
  | PStr s => inr (chars s)
  | PDict d => inr (map (fun kv => PStr (fst kv)) d)
  | _ => inl TypeError
  end.

(** The items of [sep.join(...)] must all be strings. *)
Fixpoint strs (l : list pyval) : exn + list string :=
  match l with
  | [] => inr []
  | PStr s :: l' => bind (strs l') (fun r => inr (s :: r))
  | _ :: _ => inl TypeError
  end.

Definition join (sep : string) (l : list pyval) : exn + string :=
  bind (strs l) (fun r => inr (PyStr.join sep r)).

(** Sequencing of a comprehension or a [for] body over a list. *)
Fixpoint mapM {A B} (f : A -> exn + B) (l : list A) : exn + list B :=
  match l with
  | [] => inr []
  | x :: l' => bind (f x) (fun y => bind (mapM f l') (fun r => inr (y :: r)))
  end.

End Py.

(** ** The world the script runs in *)

(** The working tree, as the patches whose changes it holds on top of the
    baseline revision; [baseline] is the clean tree. *)
Definition Tree := list string.
Definition baseline : Tree := [].

Record Request := mkRequest {
  url : string;
  headers : list (string * string);
  payload : pyval;
  timeout : Z
}.

Record Response := mkResponse {
  status_code : Z;
  text : string
}.

Inductive Event : Type :=
| EvRead (path : string)
| EvWrite (path content : string)
| EvShell (cmd : string)
| EvGitApply (tree_before : Tree) (patch : string) (returncode : Z)
| EvPost (req : Request)
| EvSleep (secs : Z).

(** [log] has the newest event first; [files] the newest write first. *)
Record World := mkWorld {
  files : list (string * string);
  tree : Tree;
  log : list Event
}.

(** What the script does not define: its configuration, the answers of
    the endpoints, of the shell commands and of [git apply] (each may
    depend on everything that happened before), what git makes of the
    directory (the files and the tree after a [git reset --hard] and
    after a [git apply] that exited with status zero), and the [json]
    module and [repr] of Python. *)
Record Env := mkEnv {
  OPENAI_API_KEY : string;
  ANTHROPIC_API_KEY : string;
  MAX_ITERS : Z;
  requests_post : World -> Request -> exn + Response;
  check_output : World -> string -> exn + string;
  git_apply_returncode : World -> Z;
  git_reset_hard : World -> list (string * string) * Tree;
  git_apply : World -> list (string * string) * Tree;
  json_loads : string -> option pyval;   (* [None]: it raises *)
  json_dumps : pyval -> string;          (* with ensure_ascii=False, indent=2 *)
  py_repr : pyval -> string
}.

(** ** State and exception monad *)

Inductive Res (A : Type) : Type :=
| Ok (a : A) (w : World)
| Raise (e : exn) (w : World).
Arguments Ok {A} a w.
Arguments Raise {A} e w.

Definition M (A : Type) : Type := World -> Res A.

Definition ret {A} (a : A) : M A := fun w => Ok a w.

Definition bind {A B} (c : M A) (f : A -> M B) : M B :=
  fun w => match c w with
           | Ok a w' => f a w'
           | Raise e w' => Raise e w'
           end.

Definition lift {A} (c : exn + A) : M A :=
  fun w => match c with inl e => Raise e w | inr a => Ok a w end.

Declare Scope prog_scope.
Delimit Scope prog_scope with prog.
Notation "x <- c ;; k" := (bind c (fun x => k))
  (at level 61, c at next level, right associativity) : prog_scope.
Notation "c ;;; k" := (bind c (fun _ => k))
  (at level 61, right associativity) : prog_scope.

Definition record (ev : Event) (w : World) : World :=
  mkWorld (files w) (tree w) (ev :: log w).

Definition final_world {A} (r : Res A) : World :=
  match r with Ok _ w => w | Raise _ w => w end.

(** ** The script *)

Definition nl : string := String "010"%char EmptyString.

Definition OPENAI_RESPONSES_URL := "https://api.openai.com/v1/responses".
Definition ANTHROPIC_MESSAGES_URL := "https://api.anthropic.com/v1/messages".
Definition ANTHROPIC_VERSION := "2023-06-01".

Fixpoint lookup_file (path : string) (fs : list (string * string)) : option string :=
  match fs with
  | [] => None
  | (p, c) :: fs' => if String.eqb p path then Some c else lookup_file path fs'
  end.

(** [r.raise_for_status()] *)
Definition raise_for_status (r : Response) : exn + unit :=
  if (400 <=? status_code r) && (status_code r <? 600)
  then inl (HTTPError (status_code r)) else inr tt.

Section Script.

Context (E : Env).
Local Open Scope prog_scope.

(** What a command that exited with status zero leaves of the files and
    the tree.  [git reset --hard] rewrites them as git sees fit; the
    other commands the script runs ([git status], [git rev-parse],
    [git diff]) only read. *)
Definition shell_effect (cmd : string) (w : World) : list (string * string) * Tree :=
  if String.eqb cmd "git reset --hard" then git_reset_hard E w
  else (files w, tree w).

(** [sh(cmd)]: [check_output] raises on a non-zero exit status. *)
Definition sh (cmd : string) : M string :=
  fun w =>
    match check_output E w cmd with
    | inl e => Raise e (record (EvShell cmd) w)
    | inr out =>
        Ok (PyStr.strip out)
           (mkWorld (fst (shell_effect cmd w)) (snd (shell_effect cmd w))
                    (EvShell cmd :: log w))
    end.

Definition read_file (path : string) : M string :=
  fun w =>
    match lookup_file path (files w) with
    | Some c => Ok c (record (EvRead path) w)
    | None => Raise FileNotFoundError (record (EvRead path) w)
    end.

Definition write_file (path content : string) : M unit :=
  fun w =>
    Ok tt (mkWorld ((path, content) :: files w) (tree w)
                   (EvWrite path content :: log w)).

(** [requests.post(url, headers=..., json=..., timeout=...)] *)
Definition post (req : Request) : M Response :=
  fun w =>
    match requests_post E w req with
    | inl e => Raise e (record (EvPost req) w)
    | inr r => Ok r (record (EvPost req) w)
    end.

(** [r.json()] *)
Definition response_json (r : Response) : exn + pyval :=
  match json_loads E (text r) with
  | Some v => inr v
  | None => inl JSONDecodeError
  end.

(** [time.sleep(secs)] *)
Definition sleep (secs : Z) : M unit :=
  fun w => Ok tt (record (EvSleep secs) w).

Definition call_claude (system_text user_text : string) (max_tokens : Z) : M string :=
  let model := "claude-sonnet-4-5" in
  let hdrs :=
    [ ("content-type", "application/json");
      ("x-api-key", ANTHROPIC_API_KEY E);
      ("anthropic-version", ANTHROPIC_VERSION) ] in
  let body :=
    PDict [ ("model", PStr model);
            ("max_tokens", PInt max_tokens);
            ("system", PStr system_text);
            ("messages",
              PList [ PDict [ ("role", PStr "user");
                              ("content", PStr user_text) ] ]) ] in
  r <- post (mkRequest ANTHROPIC_MESSAGES_URL hdrs body 120) ;;
  lift (raise_for_status r) ;;;
  data <- lift (response_json r) ;;
  content <- lift (Py.get data "content" (PList [])) ;;
  cs <- lift (Py.iter content) ;;
  texts <- lift (Py.mapM (fun c => Py.get c "text" (PStr "")) cs) ;;
  lift (Py.join "" texts).

(** The inner loop of [call_openai_codex] over one [item]. *)
Definition output_texts (item : pyval) : exn + list pyval :=
  Py.bind (Py.get item "content" (PList [])) (fun content =>
  Py.bind (Py.iter content) (fun cs =>
  Py.bind
    (Py.mapM
       (fun c =>
          Py.bind (Py.get c "type" PNone) (fun ty =>
            if Py.eq_str ty "output_text"
            then Py.bind (Py.get c "text" (PStr "")) (fun t => inr [t])
            else inr []))
       cs)
    (fun parts => inr (List.concat parts)))).

Definition call_openai_codex (input_text : string) : M string :=
  let model := "gpt-5.2-codex" in
  let hdrs :=
    [ ("content-type", "application/json");
      ("authorization", "Bearer " ++ OPENAI_API_KEY E) ] in
  let body := PDict [ ("model", PStr model); ("input", PStr input_text) ] in
  r <- post (mkRequest OPENAI_RESPONSES_URL hdrs body 180) ;;
  lift (raise_for_status r) ;;;
  data <- lift (response_json r) ;;
  output <- lift (Py.get data "output" (PList [])) ;;
  items <- lift (Py.iter output) ;;
  parts <- lift (Py.mapM output_texts items) ;;
  joined <- lift (Py.join nl (List.concat parts)) ;;
  ret (PyStr.strip joined).

(** [subprocess.run("git apply --whitespace=nowarn patch.diff", ...)]:
    never raises; the patch applied is the content of [patch.diff].  With
    status zero the files and the tree are what git made of them; with
    any other status nothing has changed. *)
Definition run_git_apply : M Z :=
  fun w =>
    let rc := git_apply_returncode E w in
    let patch := match lookup_file "patch.diff" (files w) with
                 | Some c => c | None => "" end in
    let after := if rc =? 0 then git_apply E w else (files w, tree w) in
    Ok rc (mkWorld (fst after) (snd after)
                   (EvGitApply (tree w) patch rc :: log w)).

Definition apply_patch (diff_text : string) : M bool :=
  write_file "patch.diff" diff_text ;;;
  rc <- run_git_apply ;;
  ret (rc =? 0).

End Script.

(** ** [main] *)

(** [str(x)] as the f-string [f"- {x}"] computes it: a string is itself,
    the other values are printed by their [repr]. *)
Definition py_format (E : Env) (v : pyval) : string :=
  match v with
  | PStr s => s
  | PInt n => PyStr.of_int n
  | PNone => "None"
  | PBool true => "True"
  | PBool false => "False"
  | _ => py_repr E v
  end.

(** [range(lo, hi)] *)
Definition range (lo hi : Z) : list Z :=
  map (fun k => lo + Z.of_nat k) (seq 0 (Z.to_nat (hi - lo))).

Definition plan_system : string :=
  "You are a senior software planner. " ++
  "Write a concrete implementation plan in Markdown with steps and acceptance criteria. " ++
  "Be concise and actionable.".

Definition plan_user (repo_head repo_status pr_req : string) : string :=
  let context :=
    "Repo HEAD: " ++ repo_head ++ nl ++ "Repo status: " ++ repo_status ++ nl in
  context ++ nl ++ nl ++ "PR Requirements:" ++ nl ++ pr_req.

Definition codex_prompt (plan_md pr_req : string) : string :=
  nl ++
  "You are an implementation agent. Follow the plan and modify the repository." ++ nl ++
  "Return ONLY a unified diff (git patch). Do not include explanations." ++ nl ++
  nl ++
  "Plan (Markdown):" ++ nl ++
  plan_md ++ nl ++
  nl ++
  "PR Requirements:" ++ nl ++
  pr_req ++ nl ++
  nl ++
  "Constraints:" ++ nl ++
  "- Produce a patch that applies cleanly with `git apply`." ++ nl ++
  "- Keep changes minimal and relevant." ++ nl.

Definition verify_system : string :=
  "You are a strict reviewer. " ++
  "Return ONLY JSON with fields: verdict (PASS or NONPASS), reasons (array of strings), " ++
  "and if NONPASS, required_changes (array of specific actionable items).".

Definition verify_user (pr_req plan_md changed current_diff : string) : string :=
  nl ++
  "PR Requirements:" ++ nl ++
  pr_req ++ nl ++
  nl ++
  "Plan:" ++ nl ++
  plan_md ++ nl ++
  nl ++
  "Changed files:" ++ nl ++
  changed ++ nl ++
  nl ++
  "Diff:" ++ nl ++
  current_diff ++ nl.

(** The three verdicts the script makes up itself. *)
Definition no_diff_verdict : pyval :=
  PDict [ ("verdict", PStr "NONPASS");
          ("reason", PStr "Codex did not return a unified diff") ].

Definition apply_failed_verdict : pyval :=
  PDict [ ("verdict", PStr "NONPASS");
          ("reason", PStr "Patch failed to apply") ].

Definition invalid_json_verdict : pyval :=
  PDict [ ("verdict", PStr "NONPASS");
          ("reasons", PList [ PStr "Reviewer output was not valid JSON" ]);
          ("required_changes", PList []) ].

(** The report of the PASS branch. *)
Definition pass_report (i : Z) (plan_md changed : string) : string :=
  "# AI Staff Report" ++ nl ++
  nl ++
  "## Verdict" ++ nl ++
  "PASS (iteration " ++ PyStr.of_int i ++ ")" ++ nl ++
  nl ++
  "## Plan" ++ nl ++
  plan_md ++ nl ++
  nl ++
  "## Summary of changes" ++ nl ++
  "Changed files:" ++ nl ++
  changed ++ nl ++
  nl ++
  "## Notes" ++ nl ++
  "- Patch saved to `patch.diff`" ++ nl ++
  "- Reviewer details saved to `verify.json`" ++ nl.

(** The report written after the loop. *)
Definition exhausted_report (max_iters : Z) (plan_md : string) : string :=
  "# AI Staff Report" ++ nl ++
  nl ++
  "## Verdict" ++ nl ++
  "NONPASS (exhausted " ++ PyStr.of_int max_iters ++ " iterations)" ++ nl ++
  nl ++
  "## Last Plan" ++ nl ++
  plan_md ++ nl ++
  nl ++
  "## Reviewer details" ++ nl ++
  "See `verify.json`." ++ nl.

(** The feedback section appended to the plan. *)
Definition feedback_section (bullets : list string) : string :=
  nl ++ nl ++ "---" ++ nl ++ nl ++ "## Reviewer required changes" ++ nl ++
  PyStr.join nl bullets.

(** How one pass through the loop body ends: [continue] or falling off
    its end (with the plan the next iteration sees), or [return]. *)
Inductive Flow : Type :=
| Continue (plan_md : string)
| Return.

Section Main.

Context (E : Env).
Local Open Scope prog_scope.

(** Lines 73-88: the request, the repository context and the first plan. *)
Definition main_setup : M (string * string) :=
  pr_req <- read_file "input.md" ;;
  status <- sh E "git status --porcelain" ;;
  let repo_status := PyStr.or_else status "(clean)" in
  repo_head <- sh E "git rev-parse --short HEAD" ;;
  plan_md <- call_claude E plan_system (plan_user repo_head repo_status pr_req) 1400 ;;
  write_file "plan.md" plan_md ;;;
  ret (pr_req, plan_md).

(** Lines 145-150: the [try] around the extraction of the verdict. *)
Definition parse_verdict (verify_text : string) : pyval :=
  let start := PyStr.find verify_text "{" in
  let end_ := PyStr.rfind verify_text "}" in
  match json_loads E (PyStr.slice verify_text start (end_ + 1)) with
  | Some verify_json => verify_json
  | None => invalid_json_verdict
  end.

(** Lines 93-152: generation, reset and apply, review.  [None] is one of
    the two [continue]s; otherwise the changed files and the verdict. *)
Definition main_attempt (pr_req plan_md : string) : M (option (string * pyval)) :=
  diff <- call_openai_codex E (codex_prompt plan_md pr_req) ;;
  if negb (PyStr.startswith diff "diff --git") then
    write_file "verify.json" (json_dumps E no_diff_verdict) ;;;
    ret None
  else
    sh E "git reset --hard" ;;;
    ok <- apply_patch E diff ;;
    if negb ok then
      write_file "verify.json" (json_dumps E apply_failed_verdict) ;;;
      ret None
    else
      names <- sh E "git diff --name-only" ;;
      let changed := PyStr.or_else names "(none)" in
      current_diff <- sh E "git diff" ;;
      verify_text <-
        call_claude E verify_system
          (verify_user pr_req plan_md changed current_diff) 1600 ;;
      let verify_json := parse_verdict verify_text in
      write_file "verify.json" (json_dumps E verify_json) ;;;
      ret (Some (changed, verify_json)).

(** Lines 156-173: the PASS branch. *)
Definition pass_path (i : Z) (plan_md changed : string) : M Flow :=
  write_file "report.md" (pass_report i plan_md changed) ;;;
  ret Return.

(** Lines 177-182: the feedback folded into the plan. *)
Definition nonpass_path (plan_md : string) (verify_json : pyval) : M Flow :=
  required <- lift (Py.get verify_json "required_changes" (PList [])) ;;
  xs <- lift (Py.iter required) ;;
  let bullets := map (fun x => "- " ++ py_format E x) xs in
  let plan_md_updated := plan_md ++ feedback_section bullets in
  write_file "plan.md" plan_md_updated ;;;
  sleep 1 ;;;
  ret (Continue plan_md_updated).

(** Lines 154-182: what follows the review. *)
Definition main_decide (i : Z) (plan_md changed : string) (verify_json : pyval) : M Flow :=
  verdict <- lift (Py.get verify_json "verdict" PNone) ;;
  if Py.eq_str verdict "PASS"
  then pass_path i plan_md changed
  else nonpass_path plan_md verify_json.

(** The body of the [for] loop. *)
Definition main_iteration (pr_req : string) (i : Z) (plan_md : string) : M Flow :=
  r <- main_attempt pr_req plan_md ;;
  match r with
  | None => ret (Continue plan_md)
  | Some (changed, verify_json) => main_decide i plan_md changed verify_json
  end.

(** [for i in ...]: [None] when the body returned, otherwise the plan
    the loop ended with. *)
Fixpoint main_loop (pr_req : string) (iters : list Z) (plan_md : string)
  : M (option string) :=
  match iters with
  | [] => ret (Some plan_md)
  | i :: rest =>
      f <- main_iteration pr_req i plan_md ;;
      match f with
      | Return => ret None
      | Continue plan_md' => main_loop pr_req rest plan_md'
      end
  end.

Definition main : M unit :=
  s <- main_setup ;;
  let pr_req := fst s in
  let plan_md := snd s in
  r <- main_loop pr_req (range 1 (MAX_ITERS E + 1)) plan_md ;;
  match r with
  | None => ret tt
  | Some last_plan =>
      write_file "report.md" (exhausted_report (MAX_ITERS E) last_plan)
  end.

(** The iterations in [iters] run one after the other without a
    [return] and without an exception: the plan and the world they
    leave. *)
Fixpoint run_iters (pr_req : string) (iters : list Z) (plan_md : string) (w : World)
  : option (string * World) :=
  match iters with
  | [] => Some (plan_md, w)
  | i :: rest =>
      match main_iteration pr_req i plan_md w with
      | Ok (Continue plan_md') w' => run_iters pr_req rest plan_md' w'
      | _ => None
      end
  end.

End Main.

(** ** A reference [json] module

    [json.loads] and [json.dumps] are parameters of the development (the
    fields of [Env]); the theorems hold for whatever they compute.  The
    concrete runs below need one instance.  [JsonRef] reads and prints
    the ASCII fragment of JSON: objects, arrays, strings with the simple
    escapes, numbers, [true], [false], [null].  A number with a fraction
    or an exponent is kept as a [PFloat] carrying its literal.  A
    [\u] escape and the non-standard [NaN] and [Infinity] are outside the
    fragment and rejected. *)

Module JsonRef.

Definition dq : ascii := "034"%char.
Definition bs : ascii := "092"%char.

Definition is_ws (a : ascii) : bool :=
  Ascii.eqb a " "%char || Ascii.eqb a "009"%char ||
  Ascii.eqb a "010"%char || Ascii.eqb a "013"%char.

Fixpoint skip_ws (s : string) : string :=
  match s with
  | String a s' => if is_ws a then skip_ws s' else s
  | EmptyString => s
  end.

Definition is_digit (a : ascii) : bool :=
  let n := nat_of_ascii a in (Nat.leb 48 n && Nat.leb n 57)%bool.

Definition digit_val (a : ascii) : Z := Z.of_nat (nat_of_ascii a) - 48.

(** The digits at the head of [s], and what follows them. *)
Fixpoint digits (s : string) : string * string :=
  match s with
  | String a s' =>
      if is_digit a
      then let (d, r) := digits s' in (String a d, r)
      else (EmptyString, s)
  | EmptyString => (EmptyString, s)
  end.

Fixpoint digits_val (d : string) (acc : Z) : Z :=
  match d with
  | String a d' => digits_val d' (10 * acc + digit_val a)
  | EmptyString => acc
  end.

(** An optional sign, [0] or digits without a leading zero, then an
    optional fraction and an optional exponent. *)
Definition number (s : string) : option (pyval * string) :=
  let (neg, s1) :=
    match s with
    | String a r => if Ascii.eqb a "-"%char then (true, r) else (false, s)
    | _ => (false, s)
    end in
  let sign := if (neg : bool) then "-" else "" in
  match s1 with
  | String a r0 =>
      if is_digit a then
        let (int_digits, r1) :=
          if Ascii.eqb a "0"%char then (String a EmptyString, r0) else digits s1 in
        let (frac, r2) :=
          match r1 with
          | String c r =>
              if Ascii.eqb c "."%char
              then let (d, r') := digits r in (Some d, r')
              else (None, r1)
          | _ => (None, r1)
          end in
        match frac with
        | Some EmptyString => Some (PInt (if neg then - digits_val int_digits 0
                                          else digits_val int_digits 0), r1)
        | _ =>
            let (expo, r3) :=
              match r2 with
              | String c r =>
                  if Ascii.eqb c "e"%char || Ascii.eqb c "E"%char then
                    let (sg, r') :=
                      match r with
                      | String g r'' =>
                          if Ascii.eqb g "+"%char || Ascii.eqb g "-"%char
                          then (String g EmptyString, r'') else ("", r)
                      | _ => ("", r)
                      end in
                    let (d, r'') := digits r' in
                    match d with
                    | EmptyString => (None, r2)
                    | _ => (Some (String c sg ++ d), r'')
                    end
                  else (None, r2)
              | _ => (None, r2)
              end in
            match frac, expo with
            | None, None =>
                Some (PInt (if neg then - digits_val int_digits 0
                            else digits_val int_digits 0), r3)
            | _, _ =>
                Some (PFloat (sign ++ int_digits ++
                              match frac with Some d => "." ++ d | None => "" end ++
                              match expo with Some e => e | None => "" end), r3)
            end
        end
      else None
  | _ => None
  end.

(** The characters of a string literal after its opening quote. *)
Fixpoint str_body (s : string) : option (string * string) :=
  match s with
  | EmptyString => None
  | String a r =>
      if Ascii.eqb a dq then Some (EmptyString, r)
      else if Ascii.eqb a bs then
        match r with
        | String e r' =>
            let unescaped :=
              if Ascii.eqb e dq then Some dq
              else if Ascii.eqb e bs then Some bs
              else if Ascii.eqb e "/"%char then Some "/"%char
              else if Ascii.eqb e "b"%char then Some "008"%char
              else if Ascii.eqb e "f"%char then Some "012"%char
              else if Ascii.eqb e "n"%char then Some "010"%char
              else if Ascii.eqb e "r"%char then Some "013"%char
              else if Ascii.eqb e "t"%char then Some "009"%char
              else None in
            match unescaped with
            | Some c =>
                match str_body r' with
                | Some (t, rest) => Some (String c t, rest)
                | None => None
                end
            | None => None
            end
        | EmptyString => None
        end
      else if Nat.ltb (nat_of_ascii a) 32 then None
      else
        match str_body r with
        | Some (t, rest) => Some (String a t, rest)
        | None => None
        end
  end.

(** A repeated key keeps its place and takes the last value. *)
Fixpoint dict_set (k : string) (v : pyval) (d : list (string * pyval))
  : list (string * pyval) :=
  match d with
  | [] => [(k, v)]
  | (k', v') :: d' =>
      if String.eqb k' k then (k, v) :: d' else (k', v') :: dict_set k v d'
  end.

Section Containers.

Variable value : string -> option (pyval * string).

(** After the opening bracket: the elements and the closing bracket. *)
Fixpoint elements (n : nat) (s : string) (acc : list pyval) : option (pyval * string) :=
  match n with
  | O => None
  | S n' =>
      match value s with
      | Some (v, r) =>
          match skip_ws r with
          | String c r' =>
              if Ascii.eqb c ","%char then elements n' r' (acc ++ [v])%list
              else if Ascii.eqb c "]"%char then Some (PList (acc ++ [v])%list, r')
              else None
          | EmptyString => None
          end
      | None => None
      end
  end.

(** After the opening brace: the members and the closing brace. *)
Fixpoint members (n : nat) (s : string) (acc : list (string * pyval))
  : option (pyval * string) :=
  match n with
  | O => None
  | S n' =>
      match skip_ws s with
      | String q r =>
          if Ascii.eqb q dq then
            match str_body r with
            | Some (k, r1) =>
                match skip_ws r1 with
                | String c r2 =>
                    if Ascii.eqb c ":"%char then
                      match value r2 with
                      | Some (v, r3) =>
                          match skip_ws r3 with
                          | String c' r4 =>
                              if Ascii.eqb c' ","%char
                              then members n' r4 (dict_set k v acc)
                              else if Ascii.eqb c' "}"%char
                              then Some (PDict (dict_set k v acc), r4)
                              else None
                          | EmptyString => None
                          end
                      | None => None
                      end
                    else None
                | EmptyString => None
                end
            | None => None
            end
          else None
      | EmptyString => None
      end
  end.

End Containers.

Definition literal (word : string) (v : pyval) (s : string) : option (pyval * string) :=
  if String.prefix word s
  then Some (v, String.substring (String.length word)
                                 (String.length s - String.length word) s)
  else None.

(** One value, after optional white space. *)
Fixpoint value (fuel : nat) (s : string) : option (pyval * string) :=
  match fuel with
  | O => None
  | S fuel' =>
      match skip_ws s with
      | EmptyString => None
      | String a r as s0 =>
          if Ascii.eqb a "{"%char then
            match skip_ws r with
            | String c r' =>
                if Ascii.eqb c "}"%char then Some (PDict [], r')
                else members (value fuel') (String.length r) r []
            | EmptyString => None
            end
          else if Ascii.eqb a "["%char then
            match skip_ws r with
            | String c r' =>
                if Ascii.eqb c "]"%char then Some (PList [], r')
                else elements (value fuel') (String.length r) r []
            | EmptyString => None
            end
          else if Ascii.eqb a dq then
            match str_body r with
            | Some (t, rest) => Some (PStr t, rest)
            | None => None
            end
          else if Ascii.eqb a "t"%char then literal "true" (PBool true) s0
          else if Ascii.eqb a "f"%char then literal "false" (PBool false) s0
          else if Ascii.eqb a "n"%char then literal "null" PNone s0
          else number s0
      end
  end.

(** [json.loads(s)]: one value and nothing but white space after it. *)
Definition loads (s : string) : option pyval :=
  match value (S (String.length s)) s with
  | Some (v, r) =>
      match skip_ws r with EmptyString => Some v | _ => None end
  | None => None
  end.

End JsonRef.

(** *** Printing *)

Module JsonOut.

Definition hex_digit (n : nat) : ascii :=
  if Nat.ltb n 10 then ascii_of_nat (48 + n) else ascii_of_nat (87 + n).

(** One character inside a string literal, as [json.dumps] escapes it
    with [ensure_ascii=False]. *)
Definition escape (a : ascii) : string :=
  let bsl := String JsonRef.bs EmptyString in
  if Ascii.eqb a JsonRef.dq then bsl ++ String JsonRef.dq EmptyString
  else if Ascii.eqb a JsonRef.bs then bsl ++ bsl
  else if Ascii.eqb a "010"%char then bsl ++ "n"
  else if Ascii.eqb a "013"%char then bsl ++ "r"
  else if Ascii.eqb a "009"%char then bsl ++ "t"
  else if Ascii.eqb a "008"%char then bsl ++ "b"
  else if Ascii.eqb a "012"%char then bsl ++ "f"
  else if Nat.ltb (nat_of_ascii a) 32 then
    bsl ++ "u00" ++ String (hex_digit (Nat.div (nat_of_ascii a) 16))
                     (String (hex_digit (Nat.modulo (nat_of_ascii a) 16)) EmptyString)
  else String a EmptyString.

Fixpoint escape_all (s : string) : string :=
  match s with
  | EmptyString => EmptyString
  | String a s' => escape a ++ escape_all s'
  end.

Definition quoted (s : string) : string :=
  String JsonRef.dq (escape_all s ++ String JsonRef.dq EmptyString).

Fixpoint pad (n : nat) : string :=
  match n with O => EmptyString | S n' => String " "%char (pad n') end.

(** [json.dumps(v, ensure_ascii=False, indent=2)] at nesting depth
    [depth]. *)
Fixpoint dumps_at (depth : nat) (v : pyval) : string :=
  match v with
  | PNone => "null"
  | PBool true => "true"
  | PBool false => "false"
  | PInt n => PyStr.of_int n
  | PFloat r => r
  | PStr s => quoted s
  | PList [] => "[]"
  | PList l =>
      "[" ++ nl ++ pad (2 * S depth) ++
      String.concat ("," ++ nl ++ pad (2 * S depth)) (map (dumps_at (S depth)) l) ++
      nl ++ pad (2 * depth) ++ "]"
  | PDict [] => "{}"
  | PDict d =>
      "{" ++ nl ++ pad (2 * S depth) ++
      String.concat ("," ++ nl ++ pad (2 * S depth))
        (map (fun kv => quoted (fst kv) ++ ": " ++ dumps_at (S depth) (snd kv)) d) ++
      nl ++ pad (2 * depth) ++ "}"
  end.

Definition dumps (v : pyval) : string := dumps_at 0 v.

(** [repr(v)], exact when the strings inside [v] are made of printable
    characters other than quotes and the backslash. *)
Fixpoint repr (v : pyval) : string :=
  match v with
  | PNone => "None"
  | PBool true => "True"
  | PBool false => "False"
  | PInt n => PyStr.of_int n
  | PFloat r => r
  | PStr s => "'" ++ s ++ "'"
  | PList l => "[" ++ String.concat ", " (map repr l) ++ "]"
  | PDict d =>
      "{" ++ String.concat ", "
               (map (fun kv => "'" ++ fst kv ++ "': " ++ repr (snd kv)) d) ++ "}"
  end.

End JsonOut.

(** ** Concrete environments

    The endpoints answer by the number of requests they have already
    received; the shell always succeeds. *)

Module Scenario.

Definition posts_to (u : string) (l : list Event) : nat :=
  List.length
    (filter (fun ev => match ev with
                       | EvPost r => String.eqb (url r) u
                       | _ => false
                       end) l).

Definition applies (l : list Event) : nat :=
  List.length
    (filter (fun ev => match ev with EvGitApply _ _ _ => true | _ => false end) l).

(** The body of a Messages API answer carrying the text [t]. *)
Definition claude_body (t : string) : string :=
  JsonOut.dumps
    (PDict [ ("content", PList [ PDict [ ("type", PStr "text"); ("text", PStr t) ] ]) ]).

(** The body of a Responses API answer carrying the text [t]. *)
Definition codex_body (t : string) : string :=
  JsonOut.dumps
    (PDict [ ("output",
              PList [ PDict [ ("content",
                               PList [ PDict [ ("type", PStr "output_text");
                                               ("text", PStr t) ] ]) ] ]) ]).

Definition shell (cmd : string) : string :=
  if String.eqb cmd "git rev-parse --short HEAD" then "abc1234" ++ nl
  else if String.eqb cmd "git diff --name-only" then "app.py" ++ nl
  else if String.eqb cmd "git diff" then "diff --git a/app.py b/app.py" ++ nl
  else "".

(** The patch in [patch.diff]. *)
Definition patch_file (w : World) : string :=
  match lookup_file "patch.diff" (files w) with Some c => c | None => "" end.

(** Git on patches that edit tracked files only, none of them a file of
    the script: the reset reverts the edits, an apply adds the patch. *)
Definition reset_tracked (w : World) : list (string * string) * Tree :=
  (files w, baseline).

Definition apply_tracked (w : World) : list (string * string) * Tree :=
  (files w, (tree w ++ [patch_file w])%list).

(** [claude n] and [codex n] answer the request number [n] (from 0) to
    their endpoint; [apply_rc n] is the exit status of the [n]-th
    [git apply]. *)
Definition env (max_iters : Z)
    (claude codex : nat -> exn + Response) (apply_rc : nat -> Z) : Env :=
  mkEnv "sk-openai" "sk-anthropic" max_iters
    (fun w req =>
       if String.eqb (url req) ANTHROPIC_MESSAGES_URL
       then claude (posts_to ANTHROPIC_MESSAGES_URL (log w))
       else codex (posts_to OPENAI_RESPONSES_URL (log w)))
    (fun _ cmd => inr (shell cmd))
    (fun w => apply_rc (applies (log w)))
    reset_tracked apply_tracked
    JsonRef.loads JsonOut.dumps JsonOut.repr.

Definition start : World :=
  mkWorld [("input.md", "add a health endpoint")] baseline [].

Definition q (s : string) : string := JsonOut.quoted s.

Definition the_diff : string := "diff --git a/app.py b/app.py".

Definition ok200 (body : string) : exn + Response := inr (mkResponse 200 body).

(** The planning call answers ["PLAN"], every review answers [review]. *)
Definition claude_then (review : string) (n : nat) : exn + Response :=
  match n with
  | O => ok200 (claude_body "PLAN")
  | _ => ok200 (claude_body review)
  end.

Definition pass_text : string := "Sure: {" ++ q "verdict" ++ ": " ++ q "PASS" ++ "} done".
Definition nonpass_text : string :=
  "{" ++ q "verdict" ++ ": " ++ q "NONPASS" ++ ", " ++
  q "required_changes" ++ ": [" ++ q "add tests" ++ "]}".
Definition null_changes_text : string :=
  "{" ++ q "verdict" ++ ": " ++ q "NONPASS" ++ ", " ++
  q "required_changes" ++ ": null}".
Definition lowercase_text : string := "{" ++ q "verdict" ++ ": " ++ q "pass" ++ "}".

(** A diff and a PASS on the first iteration. *)
Definition env_pass : Env :=
  env 5 (claude_then pass_text) (fun _ => ok200 (codex_body the_diff)) (fun _ => 0).

(** Two iterations, both reviewed NONPASS. *)
Definition env_exhaust : Env :=
  env 2 (claude_then nonpass_text) (fun _ => ok200 (codex_body the_diff)) (fun _ => 0).

(** One iteration, reviewed NONPASS. *)
Definition env_one : Env :=
  env 1 (claude_then nonpass_text) (fun _ => ok200 (codex_body the_diff)) (fun _ => 0).

(** The generation endpoint answers 500. *)
Definition env_http500 : Env :=
  env 5 (claude_then pass_text) (fun _ => inr (mkResponse 500 "")) (fun _ => 0).

(** The planning call cannot reach its endpoint. *)
Definition env_plan_down : Env :=
  env 5 (fun _ => inl RequestException) (fun _ => ok200 (codex_body the_diff))
    (fun _ => 0).

(** Prose instead of a diff on the first iteration. *)
Definition env_prose : Env :=
  env 2 (claude_then pass_text)
    (fun n => match n with
              | O => ok200 (codex_body "I could not do it.")
              | _ => ok200 (codex_body the_diff)
              end)
    (fun _ => 0).

(** The review carries [null] for its required changes. *)
Definition env_null : Env :=
  env 5 (claude_then null_changes_text) (fun _ => ok200 (codex_body the_diff)) (fun _ => 0).

(** The review says [pass] in lower case. *)
Definition env_lower : Env :=
  env 1 (claude_then lowercase_text) (fun _ => ok200 (codex_body the_diff)) (fun _ => 0).

End Scenario.

(** * Vocabulary of the properties *)

(** ** The log of the loop

    What the loop may add to the log before the run reaches a terminal
    state.  A quiet event is anything but a [git apply] or a write of the
    report.  A [git apply] only ever comes as the last of three events:
    [git reset --hard], the write of [patch.diff], and the apply of that
    very patch. *)

Definition quiet_event (ev : Event) : Prop :=
  match ev with
  | EvGitApply _ _ _ => False
  | EvWrite p _ => p <> "report.md"
  | _ => True
  end.

Inductive loop_log : list Event -> Prop :=
| loop_log_nil : loop_log []
| loop_log_quiet (ev : Event) (l : list Event) :
    quiet_event ev -> loop_log l -> loop_log (ev :: l)
| loop_log_apply (t : Tree) (p : string) (rc : Z) (l : list Event) :
    loop_log l ->
    loop_log (EvGitApply t p rc
                :: EvWrite "patch.diff" p
                :: EvShell "git reset --hard" :: l).

(** [extends w w']: the log of [w'] is the log of [w] with new events in
    front, and the new events form a [loop_log]. *)
Definition extends (w w' : World) : Prop :=
  exists new, log w' = (new ++ log w)%list /\ loop_log new.

(** [triple Pre c Post]: from a world in [Pre], [c] extends the log by a
    [loop_log], whether it returns or raises; when it returns, its value
    and the world satisfy [Post]. *)
Definition triple {A} (Pre : World -> Prop) (c : M A) (Post : A -> World -> Prop) : Prop :=
  forall w, Pre w ->
    match c w with
    | Ok a w' => extends w w' /\ Post a w'
    | Raise _ w' => extends w w'
    end.

Definition any_world : World -> Prop := fun _ => True.
Definition any_result {A} : A -> World -> Prop := fun _ _ => True.

(** Every [git apply] in the log comes right after [git reset --hard]
    and the write of the patch it applies. *)
Fixpoint resets_before_applies (l : list Event) : Prop :=
  match l with
  | [] => True
  | EvGitApply t p rc :: rest =>
      (exists older,
          rest = EvWrite "patch.diff" p :: EvShell "git reset --hard" :: older) /\
      resets_before_applies rest
  | _ :: rest => resets_before_applies rest
  end.

(** No event of [l] is a write of the report. *)
Definition no_report_written (l : list Event) : Prop :=
  forall content, ~ In (EvWrite "report.md" content) l.

(** The world [w] after [content] is written to the report. *)
Definition reported (w : World) (content : string) : World :=
  mkWorld (("report.md", content) :: files w) (tree w)
          (EvWrite "report.md" content :: log w).

(** The two reports [main] can write. *)
Definition is_pass_report (content : string) : Prop :=
  exists i plan_md changed, content = pass_report i plan_md changed.

Definition is_exhausted_report (E : Env) (content : string) : Prop :=
  exists plan_md, content = exhausted_report (MAX_ITERS E) plan_md.

(** The request [call_openai_codex] sends. *)
Definition codex_request (E : Env) (input_text : string) : Request :=
  mkRequest OPENAI_RESPONSES_URL
    [ ("content-type", "application/json");
      ("authorization", "Bearer " ++ OPENAI_API_KEY E) ]
    (PDict [ ("model", PStr "gpt-5.2-codex"); ("input", PStr input_text) ])
    180.

(** ** Worlds of the concrete runs *)

(** The run of [Scenario.env_pass]: a diff and a PASS at iteration 1. *)
Definition request_text : string := "add a health endpoint".

Definition w1_pass : World := final_world (main_setup Scenario.env_pass Scenario.start).

Definition wr_pass : World :=
  final_world (main_attempt Scenario.env_pass request_text "PLAN" w1_pass).

(** The two reviewed NONPASS iterations of [Scenario.env_exhaust]. *)
Definition w1_exhaust : World :=
  final_world (main_setup Scenario.env_exhaust Scenario.start).

Definition after_two : option (string * World) :=
  run_iters Scenario.env_exhaust request_text [1; 2] "PLAN" w1_exhaust.

Definition plan_after_two : string :=
  match after_two with Some (p, _) => p | None => "" end.

Definition world_after_two : World :=
  match after_two with Some (_, w) => w | None => w1_exhaust end.

(** The reviewed iteration of [Scenario.env_lower], whose verdict says
    [pass] in lower case. *)
Definition wr_lower : World :=
  final_world (main_attempt Scenario.env_lower request_text "PLAN" w1_pass).

(** ** The claims' own words *)

(** What the claim C2 asks of a run: it returns, and the last thing it
    did was to write the report. *)
Definition ends_in_terminal_state (r : Res unit) : Prop :=
  match r with
  | Ok _ w' => exists content rest, log w' = EvWrite "report.md" content :: rest
  | Raise _ _ => False
  end.

(** The Verdict of the specification, section 3: an outcome that is PASS
    or NONPASS, reasons that are a sequence of strings, required changes
    that are a sequence of strings.  A list that is absent counts as an
    empty one. *)
Definition is_str (v : pyval) : bool :=
  match v with PStr _ => true | _ => false end.

Definition is_str_list (v : pyval) : bool :=
  match v with PList l => forallb is_str l | _ => false end.

Definition well_formed_verdict (v : pyval) : bool :=
  match v with
  | PDict d =>
      match Py.lookup "verdict" d with
      | Some (PStr s) => String.eqb s "PASS" || String.eqb s "NONPASS"
      | _ => false
      end
      && match Py.lookup "reasons" d with
         | Some r => is_str_list r
         | None => true
         end
      && match Py.lookup "required_changes" d with
         | Some r => is_str_list r
         | None => true
         end
  | _ => false
  end.


(** * Vocabulary of the further properties *)

(** ** The two calls, request and answer apart *)

(** The request [call_claude] sends. *)
Definition claude_request (E : Env) (system_text user_text : string) (max_tokens : Z)
  : Request :=
  mkRequest ANTHROPIC_MESSAGES_URL
    [ ("content-type", "application/json");
      ("x-api-key", ANTHROPIC_API_KEY E);
      ("anthropic-version", ANTHROPIC_VERSION) ]
    (PDict [ ("model", PStr "claude-sonnet-4-5");
             ("max_tokens", PInt max_tokens);
             ("system", PStr system_text);
             ("messages",
               PList [ PDict [ ("role", PStr "user");
                               ("content", PStr user_text) ] ]) ])
    120.

(** Lines 40-43: what [call_claude] makes of the answer. *)
Definition claude_text (E : Env) (r : Response) : exn + string :=
  Py.bind (raise_for_status r) (fun _ =>
  Py.bind (response_json E r) (fun data =>
  Py.bind (Py.get data "content" (PList [])) (fun content =>
  Py.bind (Py.iter content) (fun cs =>
  Py.bind (Py.mapM (fun c => Py.get c "text" (PStr "")) cs) (fun texts =>
  Py.join "" texts))))).

(** Lines 55-64: what [call_openai_codex] makes of the answer. *)
Definition codex_text (E : Env) (r : Response) : exn + string :=
  Py.bind (raise_for_status r) (fun _ =>
  Py.bind (response_json E r) (fun data =>
  Py.bind (Py.get data "output" (PList [])) (fun output =>
  Py.bind (Py.iter output) (fun items =>
  Py.bind (Py.mapM output_texts items) (fun parts =>
  Py.bind (Py.join nl (List.concat parts)) (fun joined =>
  inr (PyStr.strip joined))))))).

(** A content block of a Messages answer that carries the text [t]: a
    dict whose [text] is the string [t], or that has no [text] when [t]
    is empty. *)
Definition text_block (b : pyval) (t : string) : Prop :=
  exists f, b = PDict f /\ Py.get (PDict f) "text" (PStr "") = inr (PStr t).

(** What a content block of a Responses answer contributes: its text
    when its [type] is [output_text], nothing otherwise. *)
Definition output_block (b : pyval) (ts : list string) : Prop :=
  exists f,
    b = PDict f /\
    ((Py.lookup "type" f = Some (PStr "output_text") /\
      exists t, Py.get (PDict f) "text" (PStr "") = inr (PStr t) /\ ts = [t])
     \/
     (Py.lookup "type" f <> Some (PStr "output_text") /\ ts = [])).

(** What an item of the [output] list contributes: the texts of its
    [content] blocks, nothing when it has no [content]. *)
Definition output_item (item : pyval) (ts : list string) : Prop :=
  exists f blocks tss,
    item = PDict f /\
    Py.get (PDict f) "content" (PList []) = inr (PList blocks) /\
    Forall2 output_block blocks tss /\
    ts = List.concat tss.

(** ** Counting what a run does *)

Record Tally := mkTally {
  t_generations : nat;   (* requests to the Responses endpoint *)
  t_messages : nat;      (* requests to the Messages endpoint *)
  t_applies : nat;       (* runs of [git apply] *)
  t_sleeps : nat         (* calls of [time.sleep] *)
}.

Definition tzero : Tally := mkTally 0 0 0 0.

Definition tadd (a b : Tally) : Tally :=
  mkTally (t_generations a + t_generations b) (t_messages a + t_messages b)
          (t_applies a + t_applies b) (t_sleeps a + t_sleeps b).

Definition tle (a b : Tally) : Prop :=
  (t_generations a <= t_generations b)%nat /\
  (t_messages a <= t_messages b)%nat /\
  (t_applies a <= t_applies b)%nat /\
  (t_sleeps a <= t_sleeps b)%nat.

Definition tscale (n : nat) (a : Tally) : Tally :=
  mkTally (n * t_generations a) (n * t_messages a)
          (n * t_applies a) (n * t_sleeps a).

Definition tally_of (ev : Event) : Tally :=
  match ev with
  | EvPost r =>
      if String.eqb (url r) OPENAI_RESPONSES_URL then mkTally 1 0 0 0
      else if String.eqb (url r) ANTHROPIC_MESSAGES_URL then mkTally 0 1 0 0
      else tzero
  | EvGitApply _ _ _ => mkTally 0 0 1 0
  | EvSleep _ => mkTally 0 0 0 1
  | _ => tzero
  end.

Fixpoint tally (l : list Event) : Tally :=
  match l with
  | [] => tzero
  | ev :: l' => tadd (tally_of ev) (tally l')
  end.

(** [spends c t]: whatever [c] adds to the log counts at most [t]. *)
Definition spends {A} (c : M A) (t : Tally) : Prop :=
  forall w, exists new,
    log (final_world (c w)) = (new ++ log w)%list /\ tle (tally new) t.

(** ** The applies and the resets of a log *)

Definition apply_events (l : list Event) : list Event :=
  filter (fun ev => match ev with EvGitApply _ _ _ => true | _ => false end) l.

Definition reset_events (l : list Event) : list Event :=
  filter (fun ev => match ev with
                    | EvShell cmd => String.eqb cmd "git reset --hard"
                    | _ => false
                    end) l.

(** ** More concrete environments *)

Module Faults.

Import Scenario.



(** No iteration at all. *)
Definition env_zero : Env :=
  env 0 (claude_then pass_text) (fun _ => ok200 (codex_body the_diff)) (fun _ => 0).

(** The review gives its required changes as one string. *)
Definition string_changes_text : string :=
  "{" ++ q "verdict" ++ ": " ++ q "NONPASS" ++ ", " ++
  q "required_changes" ++ ": " ++ q "fix" ++ "}".

Definition env_string_changes : Env :=
  env 1 (claude_then string_changes_text) (fun _ => ok200 (codex_body the_diff))
    (fun _ => 0).

(** A Messages answer of three blocks, the second one without text. *)
Definition three_blocks : string :=
  JsonOut.dumps
    (PDict [ ("content",
              PList [ PDict [ ("type", PStr "text"); ("text", PStr "PL") ];
                      PDict [ ("type", PStr "tool_use") ];
                      PDict [ ("type", PStr "text"); ("text", PStr "AN") ] ]) ]).

Definition env_three_blocks : Env :=
  env 1 (fun _ => ok200 three_blocks) (fun _ => ok200 (codex_body the_diff))
    (fun _ => 0).

(** A Responses answer with a reasoning item that has no content, and a
    message item with a refusal block between two text blocks. *)
Definition mixed_output : string :=
  JsonOut.dumps
    (PDict [ ("output",
              PList [ PDict [ ("type", PStr "reasoning") ];
                      PDict [ ("type", PStr "message");
                              ("content",
                               PList [ PDict [ ("type", PStr "output_text");
                                               ("text", PStr " diff --git a b") ];
                                       PDict [ ("type", PStr "refusal");
                                               ("refusal", PStr "no") ];
                                       PDict [ ("type", PStr "output_text");
                                               ("text", PStr "+line ") ] ]) ] ]) ]).

Definition env_mixed_output : Env :=
  env 1 (claude_then pass_text) (fun _ => ok200 mixed_output) (fun _ => 0).

(** A world without [input.md]. *)
Definition no_input : World := mkWorld [("notes.txt", "keep me")] ["stale patch"] [].

End Faults.

(** ** Patches that create files

    [git reset --hard] restores the files git tracks.  A file that a
    patch has created is not tracked: the reset leaves it where it is.
    [git apply] refuses a patch that creates a file which is already
    there, and changes nothing then.  [git diff] does not list a file
    that is not tracked. *)

Module Untracked.

Import Scenario.

(** A patch that creates [path] with the one line [line] and no newline
    at its end, as [call_openai_codex] returns it: stripped. *)
Definition new_file_diff (path line : string) : string :=
  "diff --git a/" ++ path ++ " b/" ++ path ++ nl ++
  "new file mode 100644" ++ nl ++
  "--- /dev/null" ++ nl ++
  "+++ b/" ++ path ++ nl ++
  "@@ -0,0 +1 @@" ++ nl ++
  "+" ++ line ++ nl ++
  "\ No newline at end of file".

Definition health_diff : string := new_file_diff "health.py" "ok = True".
Definition ping_diff : string := new_file_diff "ping.py" "pong = 1".

(** The file a patch creates, with its content. *)
Definition creates (patch : string) : option (string * string) :=
  if String.eqb patch health_diff then Some ("health.py", "ok = True")
  else if String.eqb patch ping_diff then Some ("ping.py", "pong = 1")
  else None.

(** Exit status of [git apply]: 0 when the file is created, 1 when it
    is already there, 128 for a text that is no patch. *)
Definition apply_returncode (w : World) : Z :=
  match creates (patch_file w) with
  | Some (path, _) =>
      match lookup_file path (files w) with Some _ => 1 | None => 0 end
  | None => 128
  end.

Definition apply_creating (w : World) : list (string * string) * Tree :=
  match creates (patch_file w) with
  | Some f => (f :: files w, (tree w ++ [patch_file w])%list)
  | None => (files w, tree w)
  end.

(** The tree holds created files only, so the reset has nothing to
    restore. *)
Definition reset_keeps_untracked (w : World) : list (string * string) * Tree :=
  (files w, tree w).

(** The generation call answers the first patch twice, then the
    second. *)
Definition codex (n : nat) : exn + Response :=
  match n with
  | 2%nat => ok200 (codex_body ping_diff)
  | _ => ok200 (codex_body health_diff)
  end.

(** Three iterations; every review is NONPASS. *)
Definition env : Env :=
  mkEnv "sk-openai" "sk-anthropic" 3
    (requests_post (Scenario.env 3 (claude_then nonpass_text) codex (fun _ => 0)))
    (fun _ cmd =>
       inr (if String.eqb cmd "git rev-parse --short HEAD" then "abc1234" ++ nl
            else ""))
    apply_returncode
    reset_keeps_untracked apply_creating
    JsonRef.loads JsonOut.dumps JsonOut.repr.

End Untracked.

(** * Properties *)

(** ** The string operations on examples *)

Example find_ex : PyStr.find "ab{c}{d}e" "{" = 2. Proof. reflexivity. Qed.
Example rfind_ex : PyStr.rfind "ab{c}{d}e" "}" = 7. Proof. reflexivity. Qed.
Example slice_ex : PyStr.slice "ab{c}{d}e" 2 8 = "{c}{d}". Proof. reflexivity. Qed.
Example slice_neg : PyStr.slice "abc}" (-1) 4 = "}". Proof. reflexivity. Qed.
Example slice_none : PyStr.slice "abc" (-1) 0 = "". Proof. reflexivity. Qed.
Example strip_ex : PyStr.strip "  a b
" = "a b". Proof. reflexivity. Qed.
Example of_int_ex : PyStr.of_int 12 = "12" /\ PyStr.of_int 0 = "0" /\ PyStr.of_int (-3) = "-3".
Proof. repeat split; reflexivity. Qed.

(** ** Strings *)

Lemma append_assoc (a b c : string) : (a ++ b) ++ c = a ++ (b ++ c).
Proof. induction a as [|x a IH]; simpl; [reflexivity | now rewrite IH]. Qed.

Lemma append_nil_r (a : string) : a ++ "" = a.
Proof. induction a as [|x a IH]; simpl; [reflexivity | now rewrite IH]. Qed.

Lemma length_append (a b : string) :
  String.length (a ++ b) = (String.length a + String.length b)%nat.
Proof. induction a as [|x a IH]; simpl; [reflexivity | now rewrite IH]. Qed.

Lemma prefix_append (a b : string) : String.prefix a (a ++ b) = true.
Proof.
  induction a as [|x a IH]; simpl.
  - now destruct b.
  - destruct (ascii_dec x x) as [_|n]; [exact IH | now elim n].
Qed.

Lemma prefix_refl (a : string) : String.prefix a a = true.
Proof. rewrite <- (append_nil_r a) at 2. apply prefix_append. Qed.

Lemma contains_prefix (hay needle : string) :
  String.prefix needle hay = true -> PyStr.contains hay needle = true.
Proof. intros H. destruct hay; simpl in *; rewrite H; reflexivity. Qed.

Lemma contains_append (a needle b : string) :
  PyStr.contains (a ++ needle ++ b) needle = true.
Proof.
  induction a as [|x a IH]; simpl.
  - apply contains_prefix, prefix_append.
  - rewrite IH. apply orb_true_r.
Qed.

Lemma contains_skip (a hay needle : string) :
  PyStr.contains hay needle = true -> PyStr.contains (a ++ hay) needle = true.
Proof.
  intros H. induction a as [|x a IH]; simpl; [exact H|].
  rewrite IH. apply orb_true_r.
Qed.

(** ** The log of the loop *)

Lemma loop_log_app (a b : list Event) :
  loop_log a -> loop_log b -> loop_log (a ++ b).
Proof.
  intros Ha Hb. induction Ha as [|ev l Hq Hl IH|p rc l Hl IH]; simpl.
  - exact Hb.
  - apply loop_log_quiet; assumption.
  - apply loop_log_apply; assumption.
Qed.

(** ** A program logic for [M] *)

Lemma extends_refl (w : World) : extends w w.
Proof. exists []. split; [reflexivity | constructor]. Qed.

Lemma extends_trans (w1 w2 w3 : World) :
  extends w1 w2 -> extends w2 w3 -> extends w1 w3.
Proof.
  intros [n1 [H1 F1]] [n2 [H2 F2]]. exists (n2 ++ n1)%list. split.
  - rewrite H2, H1. apply app_assoc.
  - apply loop_log_app; assumption.
Qed.

Lemma extends_event (w w' : World) (ev : Event) :
  log w' = ev :: log w -> quiet_event ev -> extends w w'.
Proof.
  intros H Hev. exists [ev]. split; [exact H|].
  apply loop_log_quiet; [exact Hev | constructor].
Qed.

Lemma triple_ret {A} (Pre : World -> Prop) (a : A) (Post : A -> World -> Prop) :
  (forall w, Pre w -> Post a w) -> triple Pre (ret a) Post.
Proof. intros H w Hw. simpl. split; [apply extends_refl | auto]. Qed.

Lemma triple_bind {A B} (Pre : World -> Prop) (c : M A) (Mid : A -> World -> Prop)
    (f : A -> M B) (Post : B -> World -> Prop) :
  triple Pre c Mid ->
  (forall a, triple (Mid a) (f a) Post) ->
  triple Pre (bind c f) Post.
Proof.
  intros Hc Hf w Hw. unfold bind. specialize (Hc w Hw).
  destruct (c w) as [a w1|e w1]; [|exact Hc].
  destruct Hc as [Hext Hmid]. specialize (Hf a w1 Hmid).
  destruct (f a w1) as [b w2|e w2].
  - destruct Hf as [Hext2 Hpost]. split; [eapply extends_trans; eauto | exact Hpost].
  - eapply extends_trans; eauto.
Qed.

(** [bind] is associative, which lets two steps be taken as one. *)
Lemma triple_assoc {A B C} (Pre : World -> Prop) (c : M A) (f : A -> M B)
    (g : B -> M C) (Post : C -> World -> Prop) :
  triple Pre (bind (bind c f) g) Post ->
  triple Pre (bind c (fun a => bind (f a) g)) Post.
Proof.
  intros H w Hw. specialize (H w Hw). unfold bind in *.
  destruct (c w) as [a w1|e w1]; exact H.
Qed.

Lemma triple_conseq {A} (Pre Pre' : World -> Prop) (c : M A)
    (Post Post' : A -> World -> Prop) :
  triple Pre' c Post' ->
  (forall w, Pre w -> Pre' w) ->
  (forall a w, Post' a w -> Post a w) ->
  triple Pre c Post.
Proof.
  intros H Hpre Hpost w Hw. specialize (H w (Hpre w Hw)).
  destruct (c w); [destruct H; split; auto | exact H].
Qed.

Lemma triple_lift {A} (c : exn + A) : triple any_world (lift c) any_result.
Proof.
  intros w _. unfold lift. destruct c; [apply extends_refl|].
  split; [apply extends_refl | exact I].
Qed.

(** ** What a [loop_log] guarantees *)

Lemma loop_log_resets (l : list Event) : loop_log l -> resets_before_applies l.
Proof.
  intros H. induction H as [|ev l Hq Hl IH|t p rc l Hl IH].
  - exact I.
  - destruct ev; simpl in *; try exact IH. contradiction.
  - simpl. split; [eexists; reflexivity | exact IH].
Qed.

Lemma loop_log_no_report (l : list Event) : loop_log l -> no_report_written l.
Proof.
  intros H content. induction H as [|ev l Hq Hl IH|t p rc l Hl IH]; simpl.
  - auto.
  - intros [Heq|Hin]; [|exact (IH Hin)]. subst ev. simpl in Hq. now apply Hq.
  - intros [Heq|[Heq|[Heq|Hin]]]; try discriminate. exact (IH Hin).
Qed.

Section Primitives.

Context (E : Env).

Lemma sh_any (cmd : string) : triple any_world (sh E cmd) any_result.
Proof.
  intros w _. unfold sh. destruct (check_output E w cmd).
  - eapply extends_event; simpl; [reflexivity | exact I].
  - split; [eapply extends_event; simpl; [reflexivity | exact I] | exact I].
Qed.

Lemma read_file_triple (path : string) :
  triple any_world (read_file path) any_result.
Proof.
  intros w _. unfold read_file. destruct (lookup_file path (files w)).
  - split; [|exact I]. eapply extends_event; simpl; [reflexivity | exact I].
  - eapply extends_event; simpl; [reflexivity | exact I].
Qed.

Lemma write_file_any (path content : string) :
  path <> "report.md" ->
  triple any_world (write_file path content) any_result.
Proof.
  intros Hp w _. unfold write_file. split; [|exact I].
  eapply extends_event; simpl; [reflexivity | exact Hp].
Qed.

Lemma sleep_triple (secs : Z) : triple any_world (sleep secs) any_result.
Proof.
  intros w _. unfold sleep. split; [|exact I].
  eapply extends_event; simpl; [reflexivity | exact I].
Qed.

Lemma post_triple (req : Request) : triple any_world (post E req) any_result.
Proof.
  intros w _. unfold post.
  destruct (requests_post E w req);
    [|split; [|exact I]]; eapply extends_event; simpl; try reflexivity; exact I.
Qed.

Lemma lift_any {A} (c : exn + A) : triple any_world (lift c) any_result.
Proof. apply triple_lift. Qed.

(** Lines 115-116: the reset and the apply, taken together. *)
Lemma reset_and_apply_triple (diff_text : string) :
  triple any_world
    (bind (sh E "git reset --hard") (fun _ => apply_patch E diff_text))
    any_result.
Proof.
  intros w _. unfold bind, sh.
  destruct (check_output E w "git reset --hard") as [e|out].
  - eapply extends_event; simpl; [reflexivity | exact I].
  - unfold apply_patch, bind, write_file, run_git_apply, ret. simpl.
    split; [|exact I].
    eexists. split; [|apply loop_log_apply; apply loop_log_nil].
    reflexivity.
Qed.

End Primitives.

(** ** The blocks of [main] in the logic *)

Ltac quiet_step :=
  first
    [ apply post_triple
    | apply lift_any
    | apply sh_any
    | apply read_file_triple
    | apply sleep_triple
    | apply write_file_any; discriminate
    | apply triple_ret; intros; exact I ].

Ltac quiet :=
  repeat first [ quiet_step | eapply triple_bind; [ quiet_step | intros ] ].

Section Blocks.

Context (E : Env).

Lemma call_claude_triple (system_text user_text : string) (max_tokens : Z) :
  triple any_world (call_claude E system_text user_text max_tokens) any_result.
Proof. unfold call_claude. quiet. Qed.

Lemma call_openai_codex_triple (input_text : string) :
  triple any_world (call_openai_codex E input_text) any_result.
Proof. unfold call_openai_codex. quiet. Qed.

Lemma main_setup_triple :
  triple any_world (main_setup E) any_result.
Proof.
  unfold main_setup.
  eapply triple_bind; [apply read_file_triple | intros pr_req].
  eapply triple_bind; [apply sh_any | intros status].
  eapply triple_bind; [apply sh_any | intros repo_head].
  eapply triple_bind; [apply call_claude_triple | intros plan_md].
  quiet.
Qed.

Lemma main_attempt_triple (pr_req plan_md : string) :
  triple any_world (main_attempt E pr_req plan_md) any_result.
Proof.
  unfold main_attempt.
  eapply triple_bind; [apply call_openai_codex_triple | intros diff].
  destruct (negb (PyStr.startswith diff "diff --git")); [quiet|].
  apply triple_assoc.
  eapply triple_bind; [apply reset_and_apply_triple | intros ok].
  destruct (negb ok); [quiet|].
  eapply triple_bind; [apply sh_any | intros names].
  eapply triple_bind; [apply sh_any | intros current_diff].
  eapply triple_bind; [apply call_claude_triple | intros verify_text].
  quiet.
Qed.

(** The feedback path only ever extends the plan. *)
Lemma nonpass_path_triple (plan_md : string) (verify_json : pyval) :
  triple any_world (nonpass_path E plan_md verify_json)
    (fun f _ => exists bullets, f = Continue (plan_md ++ feedback_section bullets)).
Proof.
  unfold nonpass_path.
  eapply triple_bind; [apply lift_any | intros required].
  eapply triple_bind; [apply lift_any | intros xs].
  eapply triple_bind; [apply write_file_any; discriminate | intros ?].
  eapply triple_bind; [apply sleep_triple | intros ?].
  apply triple_ret. intros w _. eexists. reflexivity.
Qed.

(** What the feedback path does when the required changes can be
    iterated over. *)
Lemma nonpass_path_iterable (plan_md : string) (verify_json required : pyval)
    (xs : list pyval) (w : World) :
  Py.get verify_json "required_changes" (PList []) = inr required ->
  Py.iter required = inr xs ->
  let plan' :=
    plan_md ++ feedback_section (map (fun x => "- " ++ py_format E x) xs) in
  nonpass_path E plan_md verify_json w =
  Ok (Continue plan')
     (mkWorld (("plan.md", plan') :: files w) (tree w)
              (EvSleep 1 :: EvWrite "plan.md" plan' :: log w)).
Proof.
  intros Hget Hiter. unfold nonpass_path, bind, lift.
  rewrite Hget, Hiter. reflexivity.
Qed.

(** What the feedback path does when they cannot. *)
Lemma nonpass_path_not_iterable (plan_md : string) (verify_json required : pyval)
    (e : exn) (w : World) :
  Py.get verify_json "required_changes" (PList []) = inr required ->
  Py.iter required = inl e ->
  nonpass_path E plan_md verify_json w = Raise e w.
Proof.
  intros Hget Hiter. unfold nonpass_path, bind, lift.
  rewrite Hget, Hiter. reflexivity.
Qed.

(** The three ways one iteration can end. *)
Lemma main_iteration_spec (pr_req : string) (i : Z) (plan_md : string) (w : World) :
  match main_iteration E pr_req i plan_md w with
  | Ok Return w' =>
      exists changed verify_json wr,
        main_attempt E pr_req plan_md w = Ok (Some (changed, verify_json)) wr /\
        Py.get verify_json "verdict" PNone = inr (PStr "PASS") /\
        extends w wr /\
        w' = reported wr (pass_report i plan_md changed)
  | Ok (Continue plan') w' =>
      extends w w' /\ exists suffix, plan' = plan_md ++ suffix
  | Raise _ w' => extends w w'
  end.
Proof.
  unfold main_iteration, bind.
  pose proof (main_attempt_triple pr_req plan_md w I) as Ha.
  destruct (main_attempt E pr_req plan_md w) as [[[changed vj]|] wr|e wr];
    [| |exact Ha].
  - destruct Ha as [Hext _]. unfold main_decide, bind, lift.
    destruct (Py.get vj "verdict" PNone) as [e|verdict] eqn:Hv; [exact Hext|].
    destruct (Py.eq_str verdict "PASS") eqn:Hp.
    + unfold pass_path, bind, write_file, ret.
      exists changed, vj, wr. repeat split; auto.
      destruct verdict; simpl in Hp; try discriminate.
      apply String.eqb_eq in Hp. now subst.
    + pose proof (nonpass_path_triple plan_md vj wr I) as Hn.
      destruct (nonpass_path E plan_md vj wr) as [f w2|e w2].
      * destruct Hn as [Hext2 [bullets ->]]. split.
        -- eapply extends_trans; eauto.
        -- eexists; reflexivity.
      * eapply extends_trans; eauto.
  - destruct Ha as [Hext _]. simpl. split; [exact Hext|].
    exists "". symmetry. apply append_nil_r.
Qed.

End Blocks.

(** ** [range] *)

Lemma range_unfold (lo hi : Z) :
  range lo hi = if lo <? hi then lo :: range (lo + 1) hi else [].
Proof.
  unfold range. destruct (Z.ltb_spec lo hi) as [H|H].
  - replace (Z.to_nat (hi - lo)) with (S (Z.to_nat (hi - (lo + 1)))) by lia.
    cbn [seq map]. f_equal; [lia|].
    rewrite <- seq_shift, map_map. apply map_ext. intros k. lia.
  - replace (Z.to_nat (hi - lo)) with O by lia. reflexivity.
Qed.

Lemma range_split (lo mid hi : Z) :
  lo <= mid < hi ->
  range lo hi = (range lo mid ++ mid :: range (mid + 1) hi)%list.
Proof.
  intros H. remember (Z.to_nat (mid - lo)) as n eqn:Hn.
  revert lo H Hn. induction n as [|n IH]; intros lo H Hn.
  - assert (lo = mid) by lia. subst lo.
    rewrite (range_unfold mid mid), Z.ltb_irrefl. simpl.
    rewrite (range_unfold mid hi).
    destruct (Z.ltb_spec mid hi); [reflexivity | lia].
  - rewrite (range_unfold lo hi), (range_unfold lo mid).
    destruct (Z.ltb_spec lo hi); [|lia].
    destruct (Z.ltb_spec lo mid); [|lia].
    simpl. f_equal. apply IH; lia.
Qed.

Lemma range_decompose (pre post : list Z) (i : Z) :
  forall lo hi,
    range lo hi = (pre ++ i :: post)%list ->
    pre = range lo i /\ lo <= i < hi.
Proof.
  induction pre as [|a pre IH]; intros lo hi H.
  - rewrite range_unfold in H. destruct (Z.ltb_spec lo hi); [|discriminate].
    simpl in H. injection H as Hi _. subst i.
    rewrite range_unfold, Z.ltb_irrefl. split; [reflexivity | lia].
  - rewrite range_unfold in H. destruct (Z.ltb_spec lo hi); [|discriminate].
    simpl in H. injection H as Ha Hrest. subst a.
    destruct (IH _ _ Hrest) as [Hpre Hi].
    rewrite (range_unfold lo i). destruct (Z.ltb_spec lo i); [|lia].
    split; [now f_equal | lia].
Qed.

(** ** The loop *)

Section Loop.

Context (E : Env).

Lemma run_iters_extends (pr_req : string) (iters : list Z) :
  forall plan_md w plan' w',
    run_iters E pr_req iters plan_md w = Some (plan', w') ->
    extends w w' /\ exists suffix, plan' = plan_md ++ suffix.
Proof.
  induction iters as [|i rest IH]; intros plan_md w plan' w' H; simpl in H.
  - injection H as -> ->. split; [apply extends_refl|].
    exists "". symmetry. apply append_nil_r.
  - pose proof (main_iteration_spec E pr_req i plan_md w) as Hi.
    destruct (main_iteration E pr_req i plan_md w) as [[p1|] w1|e w1];
      try discriminate.
    destruct Hi as [Hext [s1 ->]].
    destruct (IH _ _ _ _ H) as [Hext2 [s2 ->]]. split.
    + eapply extends_trans; eauto.
    + exists (s1 ++ s2). apply append_assoc.
Qed.

(** Iterations that end without a [return] are transparent to the loop. *)
Lemma main_loop_app (pr_req : string) (pre post : list Z) :
  forall plan_md w plan' w',
    run_iters E pr_req pre plan_md w = Some (plan', w') ->
    main_loop E pr_req (pre ++ post) plan_md w = main_loop E pr_req post plan' w'.
Proof.
  induction pre as [|i pre IH]; intros plan_md w plan' w' H; simpl in H.
  - injection H as -> ->. reflexivity.
  - simpl. unfold bind at 1.
    destruct (main_iteration E pr_req i plan_md w) as [[p1|] w1|e w1];
      try discriminate.
    apply IH. exact H.
Qed.

Lemma main_loop_exhausted (pr_req : string) (iters : list Z)
    (plan_md : string) (w : World) (plan' : string) (w' : World) :
  run_iters E pr_req iters plan_md w = Some (plan', w') ->
  main_loop E pr_req iters plan_md w = Ok (Some plan') w'.
Proof.
  intros H. rewrite <- (app_nil_r iters).
  rewrite (main_loop_app pr_req iters [] _ _ _ _ H). reflexivity.
Qed.

(** The loop returns at the iteration whose review says PASS. *)
Lemma main_loop_pass (pr_req : string) (i : Z) (post : list Z)
    (plan_md changed : string) (verify_json : pyval) (w wr : World) :
  main_attempt E pr_req plan_md w = Ok (Some (changed, verify_json)) wr ->
  Py.get verify_json "verdict" PNone = inr (PStr "PASS") ->
  main_loop E pr_req (i :: post) plan_md w =
  Ok None (reported wr (pass_report i plan_md changed)).
Proof.
  intros Ha Hv. simpl. unfold bind at 1. unfold main_iteration, bind.
  rewrite Ha. unfold main_decide, bind, lift. rewrite Hv. reflexivity.
Qed.

(** The three ways the loop can end. *)
Lemma main_loop_spec (pr_req : string) (iters : list Z) :
  forall plan_md w,
    match main_loop E pr_req iters plan_md w with
    | Ok None w' =>
        exists pre i post planN wN changed verify_json wr,
          iters = (pre ++ i :: post)%list /\
          run_iters E pr_req pre plan_md w = Some (planN, wN) /\
          main_attempt E pr_req planN wN = Ok (Some (changed, verify_json)) wr /\
          Py.get verify_json "verdict" PNone = inr (PStr "PASS") /\
          extends w wr /\
          w' = reported wr (pass_report i planN changed)
    | Ok (Some plan') w' =>
        run_iters E pr_req iters plan_md w = Some (plan', w') /\
        extends w w'
    | Raise _ w' => extends w w'
    end.
Proof.
  induction iters as [|i rest IH]; intros plan_md w.
  - simpl. split; [reflexivity | apply extends_refl].
  - simpl. unfold bind at 1.
    pose proof (main_iteration_spec E pr_req i plan_md w) as Hi.
    destruct (main_iteration E pr_req i plan_md w) as [[p1|] w1|e w1] eqn:Hit.
    + destruct Hi as [Hext _]. specialize (IH p1 w1).
      destruct (main_loop E pr_req rest p1 w1) as [[pF|] wF|e wF].
      * destruct IH as [Hrun Hext2]. split; [exact Hrun|].
        eapply extends_trans; eauto.
      * destruct IH as (pre & j & post & pN & wN & ch & vj & wr &
                        Hsplit & Hrun & Hatt & Hv & Hext2 & Hw).
        exists (i :: pre), j, post, pN, wN, ch, vj, wr.
        split; [simpl; now f_equal|].
        split; [simpl; rewrite Hit; exact Hrun|].
        repeat split; auto. eapply extends_trans; eauto.
      * eapply extends_trans; eauto.
    + destruct Hi as (ch & vj & wr & Hatt & Hv & Hext & Hw).
      exists [], i, rest, plan_md, w, ch, vj, wr. repeat split; auto.
    + exact Hi.
Qed.

End Loop.

(** ** The whole run *)

Lemma reports_differ (i m : Z) (plan_md changed plan_md' : string) :
  pass_report i plan_md changed <> exhausted_report m plan_md'.
Proof. unfold pass_report, exhausted_report, nl. simpl. discriminate. Qed.

Section Run.

Context (E : Env).

Lemma main_unfold (w0 : World) :
  main E w0 =
  match main_setup E w0 with
  | Ok s w1 =>
      match main_loop E (fst s) (range 1 (MAX_ITERS E + 1)) (snd s) w1 with
      | Ok None w' => Ok tt w'
      | Ok (Some last_plan) w' =>
          Ok tt (reported w' (exhausted_report (MAX_ITERS E) last_plan))
      | Raise e w' => Raise e w'
      end
  | Raise e w1 => Raise e w1
  end.
Proof.
  unfold main, bind. destruct (main_setup E w0) as [s w1|e w1]; [|reflexivity].
  destruct (main_loop E (fst s) (range 1 (MAX_ITERS E + 1)) (snd s) w1)
    as [[p|] w'|e w']; reflexivity.
Qed.

(** A run that returns has written one report, as its last action: the
    PASS report of the iteration whose review said PASS, or the
    exhaustion report after all [MAX_ITERS] iterations.  A run that
    raises has written none. *)
Lemma main_spec (w0 : World) :
  match main E w0 with
  | Ok _ w' =>
      exists pr_req plan0 w1,
        main_setup E w0 = Ok (pr_req, plan0) w1 /\
        ((exists N planN wN changed verify_json wr,
            1 <= N <= MAX_ITERS E /\
            run_iters E pr_req (range 1 N) plan0 w1 = Some (planN, wN) /\
            main_attempt E pr_req planN wN = Ok (Some (changed, verify_json)) wr /\
            Py.get verify_json "verdict" PNone = inr (PStr "PASS") /\
            extends w0 wr /\
            w' = reported wr (pass_report N planN changed))
         \/
         (exists planF wF,
            run_iters E pr_req (range 1 (MAX_ITERS E + 1)) plan0 w1 = Some (planF, wF) /\
            extends w0 wF /\
            w' = reported wF (exhausted_report (MAX_ITERS E) planF)))
  | Raise _ w' => extends w0 w'
  end.
Proof.
  rewrite main_unfold.
  pose proof (main_setup_triple E w0 I) as Hs.
  destruct (main_setup E w0) as [[pr_req plan0] w1|e w1]; [|exact Hs].
  destruct Hs as [Hext _]. simpl fst; simpl snd.
  pose proof (main_loop_spec E pr_req (range 1 (MAX_ITERS E + 1)) plan0 w1) as Hl.
  destruct (main_loop E pr_req (range 1 (MAX_ITERS E + 1)) plan0 w1)
    as [[pF|] wF|e wF].
  - destruct Hl as [Hrun Hext2].
    exists pr_req, plan0, w1. split; [reflexivity|]. right.
    exists pF, wF. repeat split; auto. eapply extends_trans; eauto.
  - destruct Hl as (pre & i & post & pN & wN & ch & vj & wr &
                    Hsplit & Hrun & Hatt & Hv & Hext2 & Hw).
    destruct (range_decompose _ _ _ _ _ Hsplit) as [Hpre Hi]. subst pre.
    exists pr_req, plan0, w1. split; [reflexivity|]. left.
    exists i, pN, wN, ch, vj, wr. repeat split; auto; try lia.
    eapply extends_trans; eauto.
  - eapply extends_trans; eauto.
Qed.

End Run.

(** ** [find], [rfind] and the slice between them *)

Lemma find_from_spec (c : ascii) (s : string) :
  forall k,
    let r := PyStr.find_from c s k in
    (r = -1 /\ forall n, String.get n s <> Some c) \/
    (k <= r < k + PyStr.len s /\
     String.get (Z.to_nat (r - k)) s = Some c /\
     forall n, (n < Z.to_nat (r - k))%nat -> String.get n s <> Some c).
Proof.
  unfold PyStr.len. induction s as [|a s IH]; intros k; simpl.
  - left. split; [reflexivity | discriminate].
  - destruct (Ascii.eqb_spec a c) as [->|Hne].
    + right. rewrite Z.sub_diag. simpl.
      split; [lia|]. split; [reflexivity | intros n Hn; lia].
    + destruct (IH (k + 1)) as [[Hr Hnone]|[Hr [Hget Hbefore]]].
      * left. split; [exact Hr|]. intros [|n]; simpl; [congruence | apply Hnone].
      * right. split; [lia|].
        replace (Z.to_nat (PyStr.find_from c s (k + 1) - k))
          with (S (Z.to_nat (PyStr.find_from c s (k + 1) - (k + 1)))) by lia.
        simpl. split; [exact Hget|].
        intros [|n] Hn; simpl; [congruence | apply Hbefore; lia].
Qed.

Lemma rfind_from_spec (c : ascii) (s : string) :
  forall k last,
    let r := PyStr.rfind_from c s k last in
    (r = last /\ forall n, String.get n s <> Some c) \/
    (k <= r < k + PyStr.len s /\
     String.get (Z.to_nat (r - k)) s = Some c /\
     forall n, (Z.to_nat (r - k) < n)%nat -> String.get n s <> Some c).
Proof.
  unfold PyStr.len. induction s as [|a s IH]; intros k last; simpl.
  - left. split; [reflexivity | discriminate].
  - destruct (IH (k + 1) (if Ascii.eqb a c then k else last))
      as [[Hr Hnone]|[Hr [Hget Hafter]]].
    + destruct (Ascii.eqb_spec a c) as [->|Hne].
      * right. rewrite Hr, Z.sub_diag. simpl.
        split; [lia|]. split; [reflexivity|].
        intros [|n] Hn; [lia | simpl; apply Hnone].
      * left. split; [exact Hr|].
        intros [|n]; simpl; [congruence | apply Hnone].
    + right. split; [lia|].
      set (r := PyStr.rfind_from c s (k + 1) (if Ascii.eqb a c then k else last)) in *.
      replace (Z.to_nat (r - k)) with (S (Z.to_nat (r - (k + 1)))) by lia.
      simpl. split; [exact Hget|].
      intros [|n] Hn; [lia | simpl; apply Hafter; lia].
Qed.

Lemma substring_one (c : ascii) (s : string) :
  forall n, String.get n s = Some c ->
            String.substring n 1 s = String c EmptyString.
Proof.
  induction s as [|a s IH]; intros [|n] H; simpl in *; try discriminate.
  - injection H as ->. now destruct s.
  - now apply IH.
Qed.

(** Case analysis on the comparisons of a goal, innermost first. *)
Ltac ltb_cases :=
  repeat match goal with
         | |- context [if ?a <? ?b then _ else _] =>
             lazymatch a with
             | context [if _ then _ else _] => fail
             | _ => idtac
             end;
             lazymatch b with
             | context [if _ then _ else _] => fail
             | _ => idtac
             end;
             destruct (Z.ltb_spec a b); try lia
         end.

(** The text handed to [json.loads]: from the first opening brace to
    the last closing brace when they come in that order; otherwise
    nothing, or the lone last closing brace. *)
Lemma extracted_slice (verify_text : string) :
  let start := PyStr.find verify_text "{" in
  let end_ := PyStr.rfind verify_text "}" in
  let extracted := PyStr.slice verify_text start (end_ + 1) in
  (0 <= start <= end_ ->
   extracted =
     String.substring (Z.to_nat start) (Z.to_nat (end_ - start + 1)) verify_text /\
   String.get (Z.to_nat start) verify_text = Some "{"%char /\
   (forall n, (n < Z.to_nat start)%nat -> String.get n verify_text <> Some "{"%char) /\
   String.get (Z.to_nat end_) verify_text = Some "}"%char /\
   (forall n, (Z.to_nat end_ < n)%nat -> String.get n verify_text <> Some "}"%char)) /\
  (~ 0 <= start <= end_ -> extracted = "" \/ extracted = "}").
Proof.
  intros start end_ extracted.
  pose proof (find_from_spec "{" verify_text 0) as Hf.
  pose proof (rfind_from_spec "}" verify_text 0 (-1)) as Hr.
  fold (PyStr.find verify_text "{") in Hf. fold start in Hf.
  fold (PyStr.rfind verify_text "}") in Hr. fold end_ in Hr.
  simpl in Hf, Hr. rewrite !Z.sub_0_r in *.
  subst extracted. unfold PyStr.slice, PyStr.clamp.
  set (n := PyStr.len verify_text) in *.
  split.
  - intros Hse.
    destruct Hf as [[Hf _]|(Hfr & Hfget & Hfbefore)]; [lia|].
    destruct Hr as [[Hr _]|(Hrr & Hrget & Hrafter)]; [lia|].
    ltb_cases. split; [f_equal; lia|]. auto.
  - intros Hse.
    destruct Hf as [[Hf _]|(Hfr & Hfget & Hfbefore)];
      destruct Hr as [[Hr _]|(Hrr & Hrget & Hrafter)];
      ltb_cases; auto.
    right.
    replace (Z.to_nat (start + n)) with (Z.to_nat end_) by lia.
    replace (Z.to_nat (end_ + 1 - (start + n))) with 1%nat by lia.
    apply substring_one. exact Hrget.
Qed.

(** ** The feedback section *)

Section Feedback.

Context (E : Env).

(** A reviewed iteration whose verdict is not PASS and whose required
    changes can be iterated over (a list, also an empty or an absent
    one, a string, a dict) appends the feedback section, one bullet per
    item, and the plan grows. *)
Lemma reviewed_nonpass_appends
    (pr_req plan_md changed : string) (i : Z)
    (verify_json verdict required : pyval) (xs : list pyval) (w wr : World) :
  main_attempt E pr_req plan_md w = Ok (Some (changed, verify_json)) wr ->
  Py.get verify_json "verdict" PNone = inr verdict ->
  verdict <> PStr "PASS" ->
  Py.get verify_json "required_changes" (PList []) = inr required ->
  Py.iter required = inr xs ->
  let plan' :=
    plan_md ++ feedback_section (map (fun x => "- " ++ py_format E x) xs) in
  main_iteration E pr_req i plan_md w =
    Ok (Continue plan')
       (mkWorld (("plan.md", plan') :: files wr) (tree wr)
                (EvSleep 1 :: EvWrite "plan.md" plan' :: log wr)) /\
  (String.length plan_md < String.length plan')%nat.
Proof.
  intros Hatt Hv Hne Hreq Hiter plan'. split.
  - unfold main_iteration, bind at 1. rewrite Hatt.
    unfold main_decide, bind at 1, lift at 1. rewrite Hv.
    destruct (Py.eq_str verdict "PASS") eqn:Hp.
    + destruct verdict; simpl in Hp; try discriminate.
      apply String.eqb_eq in Hp. subst. now elim Hne.
    + apply (nonpass_path_iterable E plan_md verify_json required xs wr Hreq Hiter).
  - subst plan'. rewrite length_append. unfold feedback_section, nl. simpl. lia.
Qed.

(** An iteration that ends before the review leaves the plan as it
    was. *)
Lemma unreviewed_keeps_plan
    (pr_req plan_md : string) (i : Z) (w w1 : World) :
  main_attempt E pr_req plan_md w = Ok None w1 ->
  main_iteration E pr_req i plan_md w = Ok (Continue plan_md) w1.
Proof.
  intros Hatt. unfold main_iteration, bind. rewrite Hatt. reflexivity.
Qed.

End Feedback.

(** ** The generation call *)

(** A generation call is one request and nothing else. *)
Lemma call_openai_codex_world (E : Env) (input_text : string) (w : World) :
  final_world (call_openai_codex E input_text w) =
  record (EvPost (codex_request E input_text)) w.
Proof.
  unfold call_openai_codex, bind, post, lift, ret, codex_request.
  destruct (requests_post E w _) as [e|r]; [reflexivity|]. simpl.
  destruct (raise_for_status r); [reflexivity|].
  destruct (response_json E r) as [e|data]; [reflexivity|].
  destruct (Py.get data "output" (PList [])) as [e|output]; [reflexivity|].
  destruct (Py.iter output) as [e|items]; [reflexivity|].
  destruct (Py.mapM (output_texts) items) as [e|parts]; [reflexivity|].
  destruct (Py.join nl (concat parts)); reflexivity.
Qed.

(** ** What the exhaustion report mentions *)










(** * The claims *)

(** [report] is [before ++ needle ++ after], so it contains [needle]. *)
Ltac in_report before after :=
  match goal with
  | |- PyStr.contains ?r ?n = true =>
      replace r with (before ++ n ++ after)
        by (unfold pass_report, exhausted_report;
            rewrite ?append_assoc; reflexivity);
      apply contains_append
  end.

(** C1.  If the review of iteration [N] (with [1 <= N <= MAX_ITERS]) gives
    a verdict whose [verdict] field is ["PASS"], the run ends right
    there: [main] returns in the world the review left, with one more
    event, the write of the report, which states [PASS (iteration N)].
    Nothing is called after that. *)
Theorem C1_pass_ends_run_at_iteration
    (E : Env) (w0 w1 wN wr : World) (pr_req plan0 planN changed : string)
    (verify_json : pyval) (N : Z) :
  1 <= N <= MAX_ITERS E ->
  main_setup E w0 = Ok (pr_req, plan0) w1 ->
  run_iters E pr_req (range 1 N) plan0 w1 = Some (planN, wN) ->
  main_attempt E pr_req planN wN = Ok (Some (changed, verify_json)) wr ->
  Py.get verify_json "verdict" PNone = inr (PStr "PASS") ->
  main E w0 = Ok tt (reported wr (pass_report N planN changed)) /\
  log (final_world (main E w0)) =
    EvWrite "report.md" (pass_report N planN changed) :: log wr /\
  lookup_file "report.md" (files (final_world (main E w0))) =
    Some (pass_report N planN changed) /\
  PyStr.contains (pass_report N planN changed)
    ("PASS (iteration " ++ PyStr.of_int N ++ ")") = true.
Proof.
  intros HN Hsetup Hrun Hatt Hv.
  assert (Hmain : main E w0 = Ok tt (reported wr (pass_report N planN changed))).
  { rewrite main_unfold, Hsetup. simpl fst; simpl snd.
    rewrite (range_split 1 N (MAX_ITERS E + 1)) by lia.
    rewrite (main_loop_app E pr_req _ _ _ _ _ _ Hrun).
    rewrite (main_loop_pass E pr_req N _ planN changed verify_json wN wr Hatt Hv).
    reflexivity. }
  rewrite Hmain. do 3 (split; [reflexivity|]).
  in_report ("# AI Staff Report" ++ nl ++ nl ++ "## Verdict" ++ nl)
            (nl ++ nl ++ "## Plan" ++ nl ++ planN ++ nl ++ nl ++
             "## Summary of changes" ++ nl ++ "Changed files:" ++ nl ++
             changed ++ nl ++ nl ++ "## Notes" ++ nl ++
             "- Patch saved to `patch.diff`" ++ nl ++
             "- Reviewer details saved to `verify.json`" ++ nl).
Qed.

Lemma C1_witness :
  main Scenario.env_pass Scenario.start =
    Ok tt (reported wr_pass (pass_report 1 "PLAN" "app.py")) /\
  log (final_world (main Scenario.env_pass Scenario.start)) =
    EvWrite "report.md" (pass_report 1 "PLAN" "app.py") :: log wr_pass /\
  lookup_file "report.md" (files (final_world (main Scenario.env_pass Scenario.start))) =
    Some (pass_report 1 "PLAN" "app.py") /\
  PyStr.contains (pass_report 1 "PLAN" "app.py")
    ("PASS (iteration " ++ PyStr.of_int 1 ++ ")") = true.
Proof.
  apply (C1_pass_ends_run_at_iteration Scenario.env_pass Scenario.start
           w1_pass w1_pass wr_pass request_text "PLAN" "PLAN" "app.py"
           (PDict [("verdict", PStr "PASS")]) 1).
  - simpl. lia.
  - vm_compute. reflexivity.
  - vm_compute. reflexivity.
  - vm_compute. reflexivity.
  - reflexivity.
Defined.

(** C2, as stated, fails: when the generation endpoint answers 500 in
    the first iteration, [raise_for_status] raises, nothing catches it,
    and the run ends with that exception and without a report.  So does
    a run whose planning call fails. *)
Lemma C2_counterexample :
  ~ ends_in_terminal_state (main Scenario.env_http500 Scenario.start) /\
  (exists w',
    main Scenario.env_http500 Scenario.start = Raise (HTTPError 500) w' /\
    lookup_file "report.md" (files w') = None) /\
  (exists w',
    main Scenario.env_plan_down Scenario.start = Raise RequestException w' /\
    lookup_file "report.md" (files w') = None).
Proof.
  split; [|split].
  - vm_compute. intros H. exact H.
  - eexists. split; vm_compute; reflexivity.
  - eexists. split; vm_compute; reflexivity.
Qed.

(** C2, amended.  A run ends in one of three ways.  If [main] returns,
    the run is in exactly one of the two terminal states: the last thing
    it did was to write the report, no report was written before, and
    the report is either the PASS report or the exhaustion report, never
    both.  Otherwise an exception left [main], and then no report was
    written during the run. *)
Theorem C2_terminal_states (E : Env) (w : World) :
  match main E w with
  | Ok _ w' =>
      exists new content,
        log w' = EvWrite "report.md" content :: (new ++ log w)%list /\
        no_report_written new /\
        lookup_file "report.md" (files w') = Some content /\
        ((is_pass_report content /\ ~ is_exhausted_report E content) \/
         (is_exhausted_report E content /\ ~ is_pass_report content))
  | Raise _ w' =>
      exists new, log w' = (new ++ log w)%list /\ no_report_written new
  end.
Proof.
  pose proof (main_spec E w) as Hm.
  destruct (main E w) as [u w'|e w'].
  - destruct Hm as (pr_req & plan0 & w1 & _ & [Hpass|Hexh]).
    + destruct Hpass as (N & pN & wN & ch & vj & wr & _ & _ & _ & _ & Hext & ->).
      destruct Hext as (new & Hlog & Hnew).
      exists new, (pass_report N pN ch). simpl. rewrite Hlog.
      split; [reflexivity|]. split; [now apply loop_log_no_report|].
      split; [reflexivity|]. left. split.
      * exists N, pN, ch. reflexivity.
      * intros [p Hp]. exact (reports_differ _ _ _ _ _ Hp).
    + destruct Hexh as (pF & wF & _ & Hext & ->).
      destruct Hext as (new & Hlog & Hnew).
      exists new, (exhausted_report (MAX_ITERS E) pF). simpl. rewrite Hlog.
      split; [reflexivity|]. split; [now apply loop_log_no_report|].
      split; [reflexivity|]. right. split.
      * exists pF. reflexivity.
      * intros (i & p & c & Hp). symmetry in Hp.
        exact (reports_differ _ _ _ _ _ Hp).
  - destruct Hm as (new & Hlog & Hnew). exists new.
    split; [exact Hlog | now apply loop_log_no_report].
Qed.

(** C3.  When the answer of the generation call does not start with
    [diff --git], the iteration consists of that one request and the
    write of [verify.json]: no shell command (so no reset), no
    [git apply], no review request.  The verdict written is NONPASS with
    the reason that no diff was returned; the plan is unchanged and the
    loop goes on with the remaining iterations. *)
Theorem C3_no_diff_skips_patch_and_review
    (E : Env) (pr_req plan_md diff : string) (i : Z) (rest : list Z) (w w1 : World) :
  call_openai_codex E (codex_prompt plan_md pr_req) w = Ok diff w1 ->
  PyStr.startswith diff "diff --git" = false ->
  let verdict_text := json_dumps E no_diff_verdict in
  let w2 := mkWorld (("verify.json", verdict_text) :: files w) (tree w)
                    (EvWrite "verify.json" verdict_text
                       :: EvPost (codex_request E (codex_prompt plan_md pr_req))
                       :: log w) in
  main_iteration E pr_req i plan_md w = Ok (Continue plan_md) w2 /\
  main_loop E pr_req (i :: rest) plan_md w = main_loop E pr_req rest plan_md w2 /\
  Py.get no_diff_verdict "verdict" PNone = inr (PStr "NONPASS") /\
  Py.get no_diff_verdict "reason" PNone =
    inr (PStr "Codex did not return a unified diff").
Proof.
  intros Hgen Hprefix verdict_text w2.
  assert (Hw1 : w1 = record (EvPost (codex_request E (codex_prompt plan_md pr_req))) w).
  { pose proof (call_openai_codex_world E (codex_prompt plan_md pr_req) w) as H.
    rewrite Hgen in H. exact H. }
  assert (Hit : main_iteration E pr_req i plan_md w = Ok (Continue plan_md) w2).
  { unfold main_iteration, main_attempt, bind. rewrite Hgen, Hprefix. simpl.
    subst w1. reflexivity. }
  split; [exact Hit|]. split; [|split; reflexivity].
  simpl. unfold bind at 1. rewrite Hit. reflexivity.
Qed.

Lemma C3_witness :
  let E := Scenario.env_prose in
  let verdict_text := json_dumps E no_diff_verdict in
  let w2 := mkWorld (("verify.json", verdict_text) :: files w1_pass) (tree w1_pass)
                    (EvWrite "verify.json" verdict_text
                       :: EvPost (codex_request E (codex_prompt "PLAN" request_text))
                       :: log w1_pass) in
  main_iteration E request_text 1 "PLAN" w1_pass = Ok (Continue "PLAN") w2 /\
  main_loop E request_text [1; 2] "PLAN" w1_pass = main_loop E request_text [2] "PLAN" w2 /\
  Py.get no_diff_verdict "verdict" PNone = inr (PStr "NONPASS") /\
  Py.get no_diff_verdict "reason" PNone =
    inr (PStr "Codex did not return a unified diff").
Proof.
  apply (C3_no_diff_skips_patch_and_review Scenario.env_prose request_text "PLAN"
           "I could not do it." 1 [2] w1_pass
           (record (EvPost (codex_request Scenario.env_prose
                              (codex_prompt "PLAN" request_text))) w1_pass)).
  - vm_compute. reflexivity.
  - reflexivity.
Defined.

(** C4.  The reset does not bring every apply back to the baseline: a
    file that a patch has created is not tracked, and [git reset --hard]
    leaves it where it is.  In the run of [Untracked.env] the three
    iterations each reset and then apply.  The first patch creates
    [health.py]; the second apply, of the same patch, finds the file
    still there and fails; the third, of a patch that creates
    [ping.py], succeeds on top of the first.  When [main] returns both
    files are there and the tree holds both patches. *)
Theorem C4_created_files_survive_the_reset :
  exists w',
    main Untracked.env Scenario.start = Ok tt w' /\
    List.length (reset_events (log w')) = 3%nat /\
    apply_events (log w') =
      [ EvGitApply [Untracked.health_diff] Untracked.ping_diff 0;
        EvGitApply [Untracked.health_diff] Untracked.health_diff 1;
        EvGitApply baseline Untracked.health_diff 0 ] /\
    tree w' = [Untracked.health_diff; Untracked.ping_diff] /\
    lookup_file "health.py" (files w') = Some "ok = True" /\
    lookup_file "ping.py" (files w') = Some "pong = 1".
Proof.
  eexists. split; [vm_compute; reflexivity|].
  repeat split; vm_compute; reflexivity.
Qed.

(** C5.  Over any sequence of iterations that the loop runs through, the
    plan the loop holds afterwards has the plan it held before as a
    prefix, and is at least as long. *)
Theorem C5_plan_is_append_only
    (E : Env) (pr_req : string) (iters : list Z) (plan_md plan' : string) (w w' : World) :
  run_iters E pr_req iters plan_md w = Some (plan', w') ->
  String.prefix plan_md plan' = true /\
  (String.length plan_md <= String.length plan')%nat.
Proof.
  intros H. destruct (run_iters_extends E pr_req iters _ _ _ _ H) as [_ [suffix ->]].
  split; [apply prefix_append|]. rewrite length_append. lia.
Qed.

Lemma C5_witness :
  String.prefix "PLAN" plan_after_two = true /\
  (String.length "PLAN" <= String.length plan_after_two)%nat.
Proof.
  apply (C5_plan_is_append_only Scenario.env_exhaust request_text [1; 2]
           "PLAN" plan_after_two w1_exhaust world_after_two).
  vm_compute. reflexivity.
Defined.

(** C6, as stated, fails: the value [json.loads] returns is taken as the
    verdict without any check of its shape.  The review text [{}] gives
    the empty dict, which has no outcome, and a review whose required
    changes are [null] gives a dict whose required changes are no
    list. *)
Lemma C6_counterexample :
  parse_verdict Scenario.env_pass "{}" = PDict [] /\
  well_formed_verdict (parse_verdict Scenario.env_pass "{}") = false /\
  well_formed_verdict
    (parse_verdict Scenario.env_pass Scenario.null_changes_text) = false.
Proof. repeat split; vm_compute; reflexivity. Qed.

(** C6, amended.  The text between the first opening brace and the last
    closing brace of the review (both included) is handed to
    [json.loads]; when the braces are missing or in the wrong order the
    text handed over is empty or a lone closing brace.  If [json.loads]
    raises, the verdict is the made-up NONPASS verdict with an empty
    list of required changes, which is well formed; if it returns, the
    verdict is the value returned, as it is.  The step is a total
    function: it never raises. *)
Theorem C6_parse_verdict (E : Env) (verify_text : string) :
  let start := PyStr.find verify_text "{" in
  let end_ := PyStr.rfind verify_text "}" in
  let extracted := PyStr.slice verify_text start (end_ + 1) in
  (0 <= start <= end_ ->
   extracted =
     String.substring (Z.to_nat start) (Z.to_nat (end_ - start + 1)) verify_text /\
   String.get (Z.to_nat start) verify_text = Some "{"%char /\
   (forall n, (n < Z.to_nat start)%nat -> String.get n verify_text <> Some "{"%char) /\
   String.get (Z.to_nat end_) verify_text = Some "}"%char /\
   (forall n, (Z.to_nat end_ < n)%nat -> String.get n verify_text <> Some "}"%char)) /\
  (~ 0 <= start <= end_ -> extracted = "" \/ extracted = "}") /\
  (forall v, json_loads E extracted = Some v -> parse_verdict E verify_text = v) /\
  (json_loads E extracted = None ->
   parse_verdict E verify_text = invalid_json_verdict) /\
  Py.get invalid_json_verdict "verdict" PNone = inr (PStr "NONPASS") /\
  Py.get invalid_json_verdict "required_changes" PNone = inr (PList []) /\
  well_formed_verdict invalid_json_verdict = true.
Proof.
  intros start end_ extracted.
  destruct (extracted_slice verify_text) as [Hin Hout].
  split; [exact Hin|]. split; [exact Hout|].
  split; [|split; [|repeat split]].
  - intros v Hv. unfold parse_verdict. fold start end_ extracted. now rewrite Hv.
  - intros Hv. unfold parse_verdict. fold start end_ extracted. now rewrite Hv.
Qed.

Lemma C6_witness :
  parse_verdict Scenario.env_pass Scenario.pass_text = PDict [("verdict", PStr "PASS")] /\
  parse_verdict Scenario.env_pass "no verdict here" = invalid_json_verdict.
Proof.
  split.
  - apply (C6_parse_verdict Scenario.env_pass Scenario.pass_text).
    vm_compute. reflexivity.
  - apply (C6_parse_verdict Scenario.env_pass "no verdict here").
    vm_compute. reflexivity.
Defined.

(** C7.  When all [MAX_ITERS] iterations run without a PASS, [main]
    ends by writing the report, which says NONPASS, exhausted after
    [MAX_ITERS] iterations, and contains the last plan in full. *)
Theorem C7_exhausted_report_has_last_plan
    (E : Env) (w0 w1 wF : World) (pr_req plan0 planF : string) :
  main_setup E w0 = Ok (pr_req, plan0) w1 ->
  run_iters E pr_req (range 1 (MAX_ITERS E + 1)) plan0 w1 = Some (planF, wF) ->
  let report := exhausted_report (MAX_ITERS E) planF in
  main E w0 = Ok tt (reported wF report) /\
  lookup_file "report.md" (files (final_world (main E w0))) = Some report /\
  PyStr.contains report
    ("NONPASS (exhausted " ++ PyStr.of_int (MAX_ITERS E) ++ " iterations)") = true /\
  PyStr.contains report planF = true.
Proof.
  intros Hsetup Hrun report.
  assert (Hmain : main E w0 = Ok tt (reported wF report)).
  { rewrite main_unfold, Hsetup. simpl fst; simpl snd.
    rewrite (main_loop_exhausted E pr_req _ _ _ _ _ Hrun). reflexivity. }
  rewrite Hmain. do 2 (split; [reflexivity|]). subst report. split.
  - in_report ("# AI Staff Report" ++ nl ++ nl ++ "## Verdict" ++ nl)
              (nl ++ nl ++ "## Last Plan" ++ nl ++ planF ++ nl ++ nl ++
               "## Reviewer details" ++ nl ++ "See `verify.json`." ++ nl).
  - in_report ("# AI Staff Report" ++ nl ++ nl ++ "## Verdict" ++ nl ++
               "NONPASS (exhausted " ++ PyStr.of_int (MAX_ITERS E) ++
               " iterations)" ++ nl ++ nl ++ "## Last Plan" ++ nl)
              (nl ++ nl ++ "## Reviewer details" ++ nl ++
               "See `verify.json`." ++ nl).
Qed.

Lemma C7_witness :
  let report := exhausted_report 2 plan_after_two in
  main Scenario.env_exhaust Scenario.start = Ok tt (reported world_after_two report) /\
  lookup_file "report.md"
    (files (final_world (main Scenario.env_exhaust Scenario.start))) = Some report /\
  PyStr.contains report
    ("NONPASS (exhausted " ++ PyStr.of_int 2 ++ " iterations)") = true /\
  PyStr.contains report plan_after_two = true.
Proof.
  apply (C7_exhausted_report_has_last_plan Scenario.env_exhaust Scenario.start
           w1_exhaust world_after_two request_text "PLAN" plan_after_two).
  - vm_compute. reflexivity.
  - vm_compute. reflexivity.
Defined.




(** C9.  The feedback section is not appended on every reviewed NONPASS
    iteration.  In the run of [Scenario.env_null] the review of the
    first iteration parses to a verdict that is NONPASS and whose
    required changes are [null]; the loop over them raises [TypeError],
    nothing catches it, and the run ends there: the plan on disk is
    still the first plan and no report is written. *)
Theorem C9_null_required_changes_end_the_run :
  let verdict :=
    PDict [("verdict", PStr "NONPASS"); ("required_changes", PNone)] in
  exists wr w',
    main_attempt Scenario.env_null request_text "PLAN" w1_pass =
      Ok (Some ("app.py", verdict)) wr /\
    Py.get verdict "verdict" PNone = inr (PStr "NONPASS") /\
    main_iteration Scenario.env_null request_text 1 "PLAN" w1_pass =
      Raise TypeError wr /\
    main Scenario.env_null Scenario.start = Raise TypeError w' /\
    lookup_file "plan.md" (files w') = Some "PLAN" /\
    lookup_file "report.md" (files w') = None.
Proof.
  eexists. eexists.
  split; [vm_compute; reflexivity|].
  split; [reflexivity|].
  split; [vm_compute; reflexivity|].
  split; [vm_compute; reflexivity|].
  split; vm_compute; reflexivity.
Qed.

(** C10.  After a review, the PASS branch is taken exactly when the
    [verdict] field of the parsed verdict is the string ["PASS"], compared
    as it is.  For every other value (["pass"], no field at all, which
    reads as [None], a value that is not a string) the iteration goes on
    as the feedback path, lines 177-182: with required changes that can
    be iterated over, the feedback section is appended to the plan and
    the loop continues. *)
Theorem C10_pass_is_exact_string_match
    (E : Env) (pr_req plan_md changed : string) (i : Z)
    (verify_json verdict : pyval) (w wr : World) :
  main_attempt E pr_req plan_md w = Ok (Some (changed, verify_json)) wr ->
  Py.get verify_json "verdict" PNone = inr verdict ->
  (Py.eq_str verdict "PASS" = true <-> verdict = PStr "PASS") /\
  (verdict = PStr "PASS" ->
   main_iteration E pr_req i plan_md w = pass_path i plan_md changed wr) /\
  (verdict <> PStr "PASS" ->
   main_iteration E pr_req i plan_md w = nonpass_path E plan_md verify_json wr /\
   forall required xs,
     Py.get verify_json "required_changes" (PList []) = inr required ->
     Py.iter required = inr xs ->
     let plan' :=
       plan_md ++ feedback_section (map (fun x => "- " ++ py_format E x) xs) in
     main_iteration E pr_req i plan_md w =
       Ok (Continue plan')
          (mkWorld (("plan.md", plan') :: files wr) (tree wr)
                   (EvSleep 1 :: EvWrite "plan.md" plan' :: log wr))) /\
  PStr "pass" <> PStr "PASS" /\
  (forall d, Py.lookup "verdict" d = None ->
             Py.get (PDict d) "verdict" PNone = inr PNone /\
             PNone <> PStr "PASS") /\
  (forall v, is_str v = false -> v <> PStr "PASS").
Proof.
  intros Hatt Hv.
  assert (Heq : Py.eq_str verdict "PASS" = true <-> verdict = PStr "PASS").
  { split.
    - destruct verdict; simpl; try discriminate.
      intros H. apply String.eqb_eq in H. now subst.
    - intros ->. reflexivity. }
  assert (Hit : main_iteration E pr_req i plan_md w =
                if Py.eq_str verdict "PASS"
                then pass_path i plan_md changed wr
                else nonpass_path E plan_md verify_json wr).
  { unfold main_iteration, bind at 1. rewrite Hatt.
    unfold main_decide, bind, lift. rewrite Hv.
    destruct (Py.eq_str verdict "PASS"); reflexivity. }
  split; [exact Heq|]. split; [|split].
  - intros Hpass. rewrite Hit. apply Heq in Hpass. now rewrite Hpass.
  - intros Hne. split.
    + rewrite Hit. destruct (Py.eq_str verdict "PASS"); [|reflexivity].
      elim Hne. apply Heq. reflexivity.
    + intros required xs Hreq Hiter.
      apply (reviewed_nonpass_appends E pr_req plan_md changed i verify_json
               verdict required xs w wr Hatt Hv Hne Hreq Hiter).
  - split; [discriminate|]. split.
    + intros d Hd. simpl. rewrite Hd. split; [reflexivity | discriminate].
    + intros v Hs ->. discriminate.
Qed.

Lemma C10_witness :
  main_iteration Scenario.env_lower request_text 1 "PLAN" w1_pass =
  nonpass_path Scenario.env_lower "PLAN" (PDict [("verdict", PStr "pass")]) wr_lower.
Proof.
  assert (Hatt : main_attempt Scenario.env_lower request_text "PLAN" w1_pass =
                 Ok (Some ("app.py", PDict [("verdict", PStr "pass")])) wr_lower)
    by (vm_compute; reflexivity).
  assert (Hv : Py.get (PDict [("verdict", PStr "pass")]) "verdict" PNone =
               inr (PStr "pass")) by reflexivity.
  destruct (C10_pass_is_exact_string_match Scenario.env_lower request_text "PLAN"
              "app.py" 1 _ _ w1_pass wr_lower Hatt Hv) as (_ & _ & Hnonpass & _).
  apply Hnonpass. discriminate.
Defined.

(** * Further properties of the script *)

(** ** The two calls *)

Lemma call_claude_factor (E : Env) (system_text user_text : string)
    (max_tokens : Z) (w : World) :
  call_claude E system_text user_text max_tokens w =
  let req := claude_request E system_text user_text max_tokens in
  match requests_post E w req with
  | inl e => Raise e (record (EvPost req) w)
  | inr r =>
      match claude_text E r with
      | inl e => Raise e (record (EvPost req) w)
      | inr t => Ok t (record (EvPost req) w)
      end
  end.
Proof.
  unfold call_claude, claude_text, claude_request, bind, post, lift, Py.bind.
  simpl.
  destruct (requests_post E w _) as [e|r]; [reflexivity|].
  destruct (raise_for_status r); [reflexivity|].
  destruct (response_json E r) as [e|data]; [reflexivity|].
  destruct (Py.get data "content" (PList [])) as [e|content]; [reflexivity|].
  destruct (Py.iter content) as [e|cs]; [reflexivity|].
  destruct (Py.mapM _ cs) as [e|texts]; [reflexivity|].
  destruct (Py.join "" texts); reflexivity.
Qed.

Lemma call_openai_codex_factor (E : Env) (input_text : string) (w : World) :
  call_openai_codex E input_text w =
  let req := codex_request E input_text in
  match requests_post E w req with
  | inl e => Raise e (record (EvPost req) w)
  | inr r =>
      match codex_text E r with
      | inl e => Raise e (record (EvPost req) w)
      | inr t => Ok t (record (EvPost req) w)
      end
  end.
Proof.
  unfold call_openai_codex, codex_text, codex_request, bind, post, lift, ret, Py.bind.
  simpl.
  destruct (requests_post E w _) as [e|r]; [reflexivity|].
  destruct (raise_for_status r); [reflexivity|].
  destruct (response_json E r) as [e|data]; [reflexivity|].
  destruct (Py.get data "output" (PList [])) as [e|output]; [reflexivity|].
  destruct (Py.iter output) as [e|items]; [reflexivity|].
  destruct (Py.mapM output_texts items) as [e|parts]; [reflexivity|].
  destruct (Py.join nl (concat parts)); reflexivity.
Qed.

Lemma call_claude_world (E : Env) (system_text user_text : string)
    (max_tokens : Z) (w : World) :
  final_world (call_claude E system_text user_text max_tokens w) =
  record (EvPost (claude_request E system_text user_text max_tokens)) w.
Proof.
  rewrite call_claude_factor. simpl.
  destruct (requests_post E w _) as [e|r]; [reflexivity|].
  destruct (claude_text E r); reflexivity.
Qed.

Lemma codex_world (E : Env) (input_text : string) (w : World) :
  final_world (call_openai_codex E input_text w) =
  record (EvPost (codex_request E input_text)) w.
Proof.
  rewrite call_openai_codex_factor. simpl.
  destruct (requests_post E w _) as [e|r]; [reflexivity|].
  destruct (codex_text E r); reflexivity.
Qed.

Lemma raise_for_status_ok (r : Response) :
  status_code r < 400 \/ 600 <= status_code r -> raise_for_status r = inr tt.
Proof.
  intros H. unfold raise_for_status.
  destruct (Z.leb_spec 400 (status_code r)); destruct (Z.ltb_spec (status_code r) 600);
    simpl; try reflexivity; lia.
Qed.

Lemma raise_for_status_inv (r : Response) (u : unit) :
  raise_for_status r = inr u -> status_code r < 400 \/ 600 <= status_code r.
Proof.
  unfold raise_for_status.
  destruct (Z.leb_spec 400 (status_code r)); destruct (Z.ltb_spec (status_code r) 600);
    simpl; try discriminate; lia.
Qed.

Lemma strs_of_strings (l : list string) : Py.strs (map PStr l) = inr l.
Proof.
  induction l as [|s l IH]; simpl; [reflexivity|]. rewrite IH. reflexivity.
Qed.

Lemma mapM_text_blocks (blocks : list pyval) (texts : list string) :
  Forall2 text_block blocks texts ->
  Py.mapM (fun c => Py.get c "text" (PStr "")) blocks = inr (map PStr texts).
Proof.
  induction 1 as [|b t blocks texts [f [-> Hget]] _ IH]; [reflexivity|].
  cbn [Py.mapM map]. rewrite Hget. cbn [Py.bind]. rewrite IH. reflexivity.
Qed.

Lemma mapM_output_blocks (blocks : list pyval) (tss : list (list string)) :
  Forall2 output_block blocks tss ->
  Py.mapM
    (fun c =>
       Py.bind (Py.get c "type" PNone) (fun ty =>
         if Py.eq_str ty "output_text"
         then Py.bind (Py.get c "text" (PStr "")) (fun t => inr [t])
         else inr []))
    blocks = inr (map (map PStr) tss).
Proof.
  induction 1 as [|b ts blocks tss [f [-> Hb]] _ IH]; [reflexivity|].
  cbn [Py.mapM map]. rewrite IH.
  destruct Hb as [[Hty (t & Hget & ->)]|[Hty ->]].
  - assert (Hty' : Py.get (PDict f) "type" PNone = inr (PStr "output_text"))
      by (simpl; rewrite Hty; reflexivity).
    rewrite Hty'. cbn [Py.bind].
    change (Py.eq_str (PStr "output_text") "output_text") with true.
    cbv iota. rewrite Hget. reflexivity.
  - assert (Hty' : exists ty, Py.get (PDict f) "type" PNone = inr ty /\
                              Py.eq_str ty "output_text" = false).
    { simpl. destruct (Py.lookup "type" f) as [ty|] eqn:Hl.
      - exists ty. split; [reflexivity|].
        destruct (Py.eq_str ty "output_text") eqn:Heq; [|reflexivity].
        destruct ty; simpl in Heq; try discriminate.
        apply String.eqb_eq in Heq. subst. now elim Hty.
      - exists PNone. split; reflexivity. }
    destruct Hty' as (ty & Hget & Heq). rewrite Hget. cbn [Py.bind].
    rewrite Heq. reflexivity.
Qed.

Lemma output_texts_item (item : pyval) (ts : list string) :
  output_item item ts -> output_texts item = inr (map PStr ts).
Proof.
  intros (f & blocks & tss & -> & Hget & Hblocks & ->).
  unfold output_texts. rewrite Hget. cbn [Py.bind Py.iter].
  rewrite (mapM_output_blocks blocks tss Hblocks). cbn [Py.bind].
  rewrite concat_map. reflexivity.
Qed.

Lemma mapM_output_items (items : list pyval) (tss : list (list string)) :
  Forall2 output_item items tss ->
  Py.mapM output_texts items = inr (map (map PStr) tss).
Proof.
  induction 1 as [|item ts items tss Hitem _ IH]; [reflexivity|].
  cbn [Py.mapM map]. rewrite (output_texts_item item ts Hitem).
  cbn [Py.bind]. rewrite IH. reflexivity.
Qed.

(** X1.  [call_claude], lines 27-43.  When the endpoint answers with a
    status outside 400..599 and a JSON object whose [content] (an empty
    list when the key is missing) is a list of blocks, each a dict whose
    [text], if any, is a string, the call returns the texts of the
    blocks joined without a separator, a block without [text] counting
    as the empty string.  The world changes by the one request. *)
Theorem call_claude_joins_text_blocks
    (E : Env) (system_text user_text : string) (max_tokens : Z) (w : World)
    (r : Response) (d : list (string * pyval)) (blocks : list pyval)
    (texts : list string) :
  requests_post E w (claude_request E system_text user_text max_tokens) = inr r ->
  status_code r < 400 \/ 600 <= status_code r ->
  json_loads E (text r) = Some (PDict d) ->
  Py.get (PDict d) "content" (PList []) = inr (PList blocks) ->
  Forall2 text_block blocks texts ->
  call_claude E system_text user_text max_tokens w =
  Ok (String.concat "" texts)
     (record (EvPost (claude_request E system_text user_text max_tokens)) w).
Proof.
  intros Hpost Hstatus Hjson Hcontent Hblocks.
  rewrite call_claude_factor. cbv zeta. rewrite Hpost.
  unfold claude_text. rewrite (raise_for_status_ok r Hstatus).
  unfold response_json. rewrite Hjson. cbn [Py.bind]. rewrite Hcontent.
  cbn [Py.bind Py.iter]. rewrite (mapM_text_blocks blocks texts Hblocks).
  cbn [Py.bind]. unfold Py.join. rewrite strs_of_strings. reflexivity.
Qed.

Lemma call_claude_joins_text_blocks_witness :
  call_claude Faults.env_three_blocks "system" "user" 100 Scenario.start =
  Ok "PLAN"
     (record (EvPost (claude_request Faults.env_three_blocks "system" "user" 100))
             Scenario.start).
Proof.
  apply (call_claude_joins_text_blocks Faults.env_three_blocks "system" "user" 100
           Scenario.start (mkResponse 200 Faults.three_blocks)
           [ ("content",
              PList [ PDict [ ("type", PStr "text"); ("text", PStr "PL") ];
                      PDict [ ("type", PStr "tool_use") ];
                      PDict [ ("type", PStr "text"); ("text", PStr "AN") ] ]) ]
           [ PDict [ ("type", PStr "text"); ("text", PStr "PL") ];
             PDict [ ("type", PStr "tool_use") ];
             PDict [ ("type", PStr "text"); ("text", PStr "AN") ] ]
           [ "PL"; ""; "AN" ]).
  - reflexivity.
  - simpl. lia.
  - vm_compute. reflexivity.
  - reflexivity.
  - repeat constructor; eexists; (split; [reflexivity | reflexivity]).
Defined.

(** X2.  [call_claude] returns a text only from a good answer: the
    request reached the endpoint, the status is outside 400..599, and
    the body is JSON for an object.  Nothing but the log changes, by the
    one request. *)
Theorem call_claude_returns_only_good_answers
    (E : Env) (system_text user_text : string) (max_tokens : Z)
    (w w' : World) (t : string) :
  call_claude E system_text user_text max_tokens w = Ok t w' ->
  exists r d,
    requests_post E w (claude_request E system_text user_text max_tokens) = inr r /\
    (status_code r < 400 \/ 600 <= status_code r) /\
    json_loads E (text r) = Some (PDict d) /\
    w' = record (EvPost (claude_request E system_text user_text max_tokens)) w.
Proof.
  rewrite call_claude_factor. cbv zeta.
  destruct (requests_post E w _) as [e|r]; [discriminate|].
  unfold claude_text, response_json.
  destruct (raise_for_status r) as [e|u] eqn:Hs; [discriminate|].
  destruct (json_loads E (text r)) as [data|] eqn:Hj; [|discriminate].
  cbn [Py.bind].
  destruct data; try discriminate.
  destruct (Py.bind _ _) as [e|t'] eqn:Hrest; [discriminate|].
  intros H. injection H as _ <-.
  exists r, entries. repeat split; auto.
  apply (raise_for_status_inv r u Hs).
Qed.

Lemma call_claude_returns_only_good_answers_witness :
  exists r d,
    requests_post Scenario.env_pass Scenario.start
      (claude_request Scenario.env_pass "system" "user" 100) = inr r /\
    (status_code r < 400 \/ 600 <= status_code r) /\
    json_loads Scenario.env_pass (text r) = Some (PDict d) /\
    record (EvPost (claude_request Scenario.env_pass "system" "user" 100)) Scenario.start =
    record (EvPost (claude_request Scenario.env_pass "system" "user" 100)) Scenario.start.
Proof.
  apply (call_claude_returns_only_good_answers Scenario.env_pass "system" "user" 100
           Scenario.start _ "PLAN").
  vm_compute. reflexivity.
Defined.

(** X3.  [call_openai_codex], lines 45-64.  When the endpoint answers
    with a status outside 400..599 and a JSON object whose [output] (an
    empty list when the key is missing) is a list of items, each a dict
    whose [content] (empty when missing) is a list of dict blocks, the
    call returns the texts of the blocks whose [type] is [output_text],
    in order, joined by newlines and stripped.  Blocks of any other
    type are skipped, whatever they hold. *)
Theorem call_openai_codex_collects_output_text
    (E : Env) (input_text : string) (w : World)
    (r : Response) (d : list (string * pyval)) (items : list pyval)
    (tss : list (list string)) :
  requests_post E w (codex_request E input_text) = inr r ->
  status_code r < 400 \/ 600 <= status_code r ->
  json_loads E (text r) = Some (PDict d) ->
  Py.get (PDict d) "output" (PList []) = inr (PList items) ->
  Forall2 output_item items tss ->
  call_openai_codex E input_text w =
  Ok (PyStr.strip (PyStr.join nl (List.concat tss)))
     (record (EvPost (codex_request E input_text)) w).
Proof.
  intros Hpost Hstatus Hjson Houtput Hitems.
  rewrite call_openai_codex_factor. cbv zeta. rewrite Hpost.
  unfold codex_text. rewrite (raise_for_status_ok r Hstatus).
  unfold response_json. rewrite Hjson. cbn [Py.bind]. rewrite Houtput.
  cbn [Py.bind Py.iter]. rewrite (mapM_output_items items tss Hitems).
  cbn [Py.bind]. rewrite <- concat_map. unfold Py.join. rewrite strs_of_strings.
  reflexivity.
Qed.

Lemma call_openai_codex_collects_output_text_witness :
  call_openai_codex Faults.env_mixed_output "prompt" Scenario.start =
  Ok ("diff --git a b" ++ nl ++ "+line")
     (record (EvPost (codex_request Faults.env_mixed_output "prompt")) Scenario.start).
Proof.
  apply (call_openai_codex_collects_output_text Faults.env_mixed_output "prompt"
           Scenario.start (mkResponse 200 Faults.mixed_output)
           [ ("output",
              PList [ PDict [ ("type", PStr "reasoning") ];
                      PDict [ ("type", PStr "message");
                              ("content",
                               PList [ PDict [ ("type", PStr "output_text");
                                               ("text", PStr " diff --git a b") ];
                                       PDict [ ("type", PStr "refusal");
                                               ("refusal", PStr "no") ];
                                       PDict [ ("type", PStr "output_text");
                                               ("text", PStr "+line ") ] ]) ] ]) ]
           [ PDict [ ("type", PStr "reasoning") ];
             PDict [ ("type", PStr "message");
                     ("content",
                      PList [ PDict [ ("type", PStr "output_text");
                                      ("text", PStr " diff --git a b") ];
                              PDict [ ("type", PStr "refusal");
                                      ("refusal", PStr "no") ];
                              PDict [ ("type", PStr "output_text");
                                      ("text", PStr "+line ") ] ]) ] ]
           [ []; [ " diff --git a b"; "+line " ] ]).
  - reflexivity.
  - simpl. lia.
  - vm_compute. reflexivity.
  - reflexivity.
  - constructor; [|constructor; [|constructor]].
    + eexists. exists []. exists []. repeat split; constructor.
    + eexists. eexists. exists [ [ " diff --git a b" ]; []; [ "+line " ] ].
      split; [reflexivity|]. split; [reflexivity|]. split; [|reflexivity].
      constructor; [|constructor; [|constructor; [|constructor]]].
      * eexists. split; [reflexivity|]. left. split; [reflexivity|].
        eexists. split; reflexivity.
      * eexists. split; [reflexivity|]. right. split; [discriminate | reflexivity].
      * eexists. split; [reflexivity|]. left. split; [reflexivity|].
        eexists. split; reflexivity.
Defined.

(** ** [strip] *)

Lemma lstrip_head (s : string) :
  PyStr.lstrip s = "" \/
  exists a r, PyStr.lstrip s = String a r /\ PyStr.isspace a = false.
Proof.
  induction s as [|a s IH]; simpl; [now left|].
  destruct (PyStr.isspace a) eqn:Ha; [exact IH|].
  right. exists a, s. split; [reflexivity | exact Ha].
Qed.

Lemma rstrip_head (a : ascii) (r : string) :
  PyStr.isspace a = false -> exists x, PyStr.rstrip (String a r) = String a x.
Proof.
  intros Ha. simpl. destruct (PyStr.rstrip r).
  - rewrite Ha. now exists "".
  - eexists. reflexivity.
Qed.

Lemma rstrip_idem (s : string) : PyStr.rstrip (PyStr.rstrip s) = PyStr.rstrip s.
Proof.
  induction s as [|a s IH]; [reflexivity|]. simpl.
  destruct (PyStr.rstrip s) as [|b r] eqn:Hr.
  - destruct (PyStr.isspace a) eqn:Ha; [reflexivity|]. simpl. now rewrite Ha.
  - change (PyStr.rstrip (String a (String b r)))
      with (match PyStr.rstrip (String b r) with
            | EmptyString =>
                if PyStr.isspace a then EmptyString else String a EmptyString
            | x => String a x
            end).
    rewrite IH. reflexivity.
Qed.

(** Stripping twice is stripping once. *)
Lemma strip_idem (s : string) : PyStr.strip (PyStr.strip s) = PyStr.strip s.
Proof.
  unfold PyStr.strip.
  destruct (lstrip_head s) as [H|(a & r & H & Ha)]; rewrite H.
  - reflexivity.
  - destruct (rstrip_head a r Ha) as [x Hx]. rewrite Hx.
    cbn [PyStr.lstrip]. rewrite Ha. rewrite <- Hx. apply rstrip_idem.
Qed.

(** What [strip] returns is empty or begins with a character that is not
    white space. *)
Lemma strip_head (s : string) :
  PyStr.strip s = "" \/
  exists a r, PyStr.strip s = String a r /\ PyStr.isspace a = false.
Proof.
  unfold PyStr.strip.
  destruct (lstrip_head s) as [H|(a & r & H & Ha)]; rewrite H.
  - now left.
  - right. destruct (rstrip_head a r Ha) as [x Hx]. exists a, x. split; assumption.
Qed.

(** X4.  [call_openai_codex] returns a text only from a good answer (the
    request reached the endpoint, the status is outside 400..599, the
    body is JSON for an object), and the text it returns is stripped:
    it is empty or begins with a character that is not white space, so
    white space in front of a diff does not stand in the way of the
    [diff --git] test.  Nothing but the log changes, by the one
    request. *)
Theorem call_openai_codex_returns_stripped_text
    (E : Env) (input_text : string) (w w' : World) (t : string) :
  call_openai_codex E input_text w = Ok t w' ->
  (exists r d,
     requests_post E w (codex_request E input_text) = inr r /\
     (status_code r < 400 \/ 600 <= status_code r) /\
     json_loads E (text r) = Some (PDict d)) /\
  PyStr.strip t = t /\
  (t = "" \/ exists a rest, t = String a rest /\ PyStr.isspace a = false) /\
  w' = record (EvPost (codex_request E input_text)) w.
Proof.
  rewrite call_openai_codex_factor. cbv zeta.
  destruct (requests_post E w _) as [e|r]; [discriminate|].
  unfold codex_text, response_json.
  destruct (raise_for_status r) as [e|u] eqn:Hs; [discriminate|].
  destruct (json_loads E (text r)) as [data|] eqn:Hj; [|discriminate].
  cbn [Py.bind].
  destruct data; try discriminate.
  destruct (Py.get (PDict entries) "output" (PList [])) as [e|output];
    [discriminate|]. cbn [Py.bind].
  destruct (Py.iter output) as [e|items]; [discriminate|]. cbn [Py.bind].
  destruct (Py.mapM output_texts items) as [e|parts]; [discriminate|].
  cbn [Py.bind].
  destruct (Py.join nl (concat parts)) as [e|joined]; [discriminate|].
  cbn [Py.bind]. intros H. injection H as <- <-.
  split; [|split; [apply strip_idem | split; [apply strip_head | reflexivity]]].
  exists r, entries. repeat split; auto.
  apply (raise_for_status_inv r u Hs).
Qed.

Lemma call_openai_codex_returns_stripped_text_witness :
  PyStr.strip ("diff --git a b" ++ nl ++ "+line") = "diff --git a b" ++ nl ++ "+line".
Proof.
  apply (call_openai_codex_returns_stripped_text Faults.env_mixed_output "prompt"
           Scenario.start
           (record (EvPost (codex_request Faults.env_mixed_output "prompt"))
                   Scenario.start)
           ("diff --git a b" ++ nl ++ "+line")).
  vm_compute. reflexivity.
Defined.


(** ** Files *)

Lemma lookup_file_other (path p content : string) (fs : list (string * string)) :
  p <> path -> lookup_file path ((p, content) :: fs) = lookup_file path fs.
Proof.
  intros H. simpl. destruct (String.eqb_spec p path); [contradiction | reflexivity].
Qed.

Lemma lookup_file_same (path content : string) (fs : list (string * string)) :
  lookup_file path ((path, content) :: fs) = Some content.
Proof. simpl. now rewrite String.eqb_refl. Qed.

(** What [sh] makes of the files and the tree, command by command. *)
Lemma shell_effect_reset (E : Env) (w : World) :
  shell_effect E "git reset --hard" w = git_reset_hard E w.
Proof. reflexivity. Qed.

(** ** The edges of a run *)

(** X9.  Without [input.md] the run ends at its first statement: [main]
    raises [FileNotFoundError] having run no command and sent no
    request, and the tree and the files are as they were. *)
Theorem missing_input_ends_the_run (E : Env) (w : World) :
  lookup_file "input.md" (files w) = None ->
  main E w = Raise FileNotFoundError (record (EvRead "input.md") w).
Proof.
  intros H. unfold main, bind at 1, main_setup, bind at 1, read_file.
  rewrite H. reflexivity.
Qed.

Lemma missing_input_ends_the_run_witness :
  main Scenario.env_pass Faults.no_input =
  Raise FileNotFoundError (record (EvRead "input.md") Faults.no_input).
Proof.
  apply (missing_input_ends_the_run Scenario.env_pass Faults.no_input).
  reflexivity.
Defined.

(** X10.  With [MAX_ITERS] zero or negative the loop body never runs:
    after the setup [main] writes the exhaustion report with the first
    plan and returns, without a generation request, a reset or an
    apply. *)
Theorem no_iteration_without_budget
    (E : Env) (w0 w1 : World) (pr_req plan_md : string) :
  MAX_ITERS E <= 0 ->
  main_setup E w0 = Ok (pr_req, plan_md) w1 ->
  main E w0 = Ok tt (reported w1 (exhausted_report (MAX_ITERS E) plan_md)).
Proof.
  intros Hmax Hsetup. rewrite main_unfold, Hsetup. cbn [fst snd].
  rewrite range_unfold. destruct (Z.ltb_spec 1 (MAX_ITERS E + 1)); [lia|].
  reflexivity.
Qed.

Lemma no_iteration_without_budget_witness :
  main Faults.env_zero Scenario.start =
  Ok tt (reported w1_pass (exhausted_report 0 "PLAN")).
Proof.
  apply (no_iteration_without_budget Faults.env_zero Scenario.start w1_pass
           request_text "PLAN").
  - simpl. lia.
  - vm_compute. reflexivity.
Defined.

(** ** The iteration, step by step *)





(** X13.  Lines 107-152.  An iteration that reaches the end of the
    review has done eight things in this order: the generation request,
    [git reset --hard], the write of [patch.diff], a [git apply] of that
    patch that returned zero, [git diff --name-only], [git diff], the
    review request, and the write of [verify.json].  The diff starts
    with [diff --git]; the changed-file list is what
    [git diff --name-only] printed after the apply, stripped, and reads
    [(none)] when that is empty; the review request carries that list
    and the stripped output of [git diff]; [verify.json] holds the
    verdict. *)
Theorem reviewed_attempt_trace
    (E : Env) (pr_req plan_md changed : string) (verify_json : pyval) (w w' : World) :
  main_attempt E pr_req plan_md w = Ok (Some (changed, verify_json)) w' ->
  exists diff t wa names wn raw_diff,
    PyStr.startswith diff "diff --git" = true /\
    log wa =
      EvGitApply t diff 0
      :: EvWrite "patch.diff" diff
      :: EvShell "git reset --hard"
      :: EvPost (codex_request E (codex_prompt plan_md pr_req))
      :: log w /\
    check_output E wa "git diff --name-only" = inr names /\
    changed = PyStr.or_else (PyStr.strip names) "(none)" /\
    log wn = EvShell "git diff --name-only" :: log wa /\
    check_output E wn "git diff" = inr raw_diff /\
    lookup_file "verify.json" (files w') = Some (json_dumps E verify_json) /\
    log w' =
      EvWrite "verify.json" (json_dumps E verify_json)
      :: EvPost (claude_request E verify_system
                   (verify_user pr_req plan_md changed (PyStr.strip raw_diff)) 1600)
      :: EvShell "git diff"
      :: EvShell "git diff --name-only"
      :: EvGitApply t diff 0
      :: EvWrite "patch.diff" diff
      :: EvShell "git reset --hard"
      :: EvPost (codex_request E (codex_prompt plan_md pr_req))
      :: log w.
Proof.
  unfold main_attempt, bind at 1. rewrite call_openai_codex_factor. cbv zeta.
  destruct (requests_post E w _) as [e|r]; [discriminate|].
  destruct (codex_text E r) as [e|diff]; [discriminate|].
  destruct (PyStr.startswith diff "diff --git") eqn:Hdiff; cbn [negb].
  2:{ unfold bind, write_file, ret. discriminate. }
  unfold bind at 1, sh at 1.
  destruct (check_output E _ "git reset --hard") as [e|out0]; [discriminate|].
  rewrite shell_effect_reset.
  unfold bind at 1, apply_patch, bind at 1 2, write_file at 1, run_git_apply, ret.
  cbn [files tree log record]. rewrite lookup_file_same.
  match goal with
  | |- context [git_apply_returncode E ?x =? 0] =>
      destruct (Z.eqb_spec (git_apply_returncode E x) 0) as [Hrc|Hrc]
  end; cbn [negb].
  2:{ unfold bind, write_file, ret. discriminate. }
  rewrite Hrc.
  unfold bind at 1, sh at 1.
  match goal with
  | |- context [check_output E ?x "git diff --name-only"] => set (wa := x)
  end.
  destruct (check_output E wa "git diff --name-only") as [e|names] eqn:Hnames;
    [discriminate|].
  unfold bind at 1, sh at 1.
  match goal with
  | |- context [check_output E ?x "git diff"] => set (wn := x)
  end.
  destruct (check_output E wn "git diff") as [e|raw_diff] eqn:Hraw; [discriminate|].
  unfold bind at 1. rewrite call_claude_factor. cbv zeta.
  destruct (requests_post E _ _) as [e|r2]; [discriminate|].
  destruct (claude_text E r2) as [e|verify_text]; [discriminate|].
  unfold bind, write_file, ret. cbn [files tree log record].
  intros H. injection H as <- <- <-.
  exists diff, (snd (git_reset_hard E
                       (record (EvPost (codex_request E (codex_prompt plan_md pr_req))) w))),
         wa, names, wn, raw_diff.
  split; [exact Hdiff|]. split; [reflexivity|]. split; [exact Hnames|].
  split; [reflexivity|]. split; [reflexivity|]. split; [exact Hraw|].
  split; [apply lookup_file_same | reflexivity].
Qed.

Lemma reviewed_attempt_trace_witness :
  exists diff t wa names wn raw_diff,
    PyStr.startswith diff "diff --git" = true /\
    log wa =
      EvGitApply t diff 0
      :: EvWrite "patch.diff" diff
      :: EvShell "git reset --hard"
      :: EvPost (codex_request Scenario.env_pass (codex_prompt "PLAN" request_text))
      :: log w1_pass /\
    check_output Scenario.env_pass wa "git diff --name-only" = inr names /\
    "app.py" = PyStr.or_else (PyStr.strip names) "(none)" /\
    log wn = EvShell "git diff --name-only" :: log wa /\
    check_output Scenario.env_pass wn "git diff" = inr raw_diff /\
    lookup_file "verify.json" (files wr_pass) =
      Some (json_dumps Scenario.env_pass (PDict [("verdict", PStr "PASS")])) /\
    log wr_pass =
      EvWrite "verify.json"
        (json_dumps Scenario.env_pass (PDict [("verdict", PStr "PASS")]))
      :: EvPost (claude_request Scenario.env_pass verify_system
                   (verify_user request_text "PLAN" "app.py" (PyStr.strip raw_diff)) 1600)
      :: EvShell "git diff"
      :: EvShell "git diff --name-only"
      :: EvGitApply t diff 0
      :: EvWrite "patch.diff" diff
      :: EvShell "git reset --hard"
      :: EvPost (codex_request Scenario.env_pass (codex_prompt "PLAN" request_text))
      :: log w1_pass.
Proof.
  apply (reviewed_attempt_trace Scenario.env_pass request_text "PLAN" "app.py"
           (PDict [("verdict", PStr "PASS")]) w1_pass wr_pass).
  vm_compute. reflexivity.
Defined.

(** ** The budget of a run *)

Lemma tle_refl (a : Tally) : tle a a.
Proof. unfold tle. repeat split; lia. Qed.

Lemma tally_app (a b : list Event) : tally (a ++ b) = tadd (tally a) (tally b).
Proof.
  induction a as [|ev a IH]; simpl.
  - destruct (tally b). reflexivity.
  - rewrite IH. unfold tadd. simpl. f_equal; lia.
Qed.

Lemma spends_weaken {A} (c : M A) (t t' : Tally) :
  spends c t -> tle t t' -> spends c t'.
Proof.
  intros H Hle w. destruct (H w) as (new & Hlog & Hnew).
  exists new. split; [exact Hlog|].
  unfold tle in *. repeat split; lia.
Qed.

Lemma spends_bind {A B} (c : M A) (f : A -> M B) (t1 t2 : Tally) :
  spends c t1 -> (forall a, spends (f a) t2) -> spends (bind c f) (tadd t1 t2).
Proof.
  intros Hc Hf w. unfold bind. destruct (Hc w) as (n1 & Hl1 & Ht1).
  destruct (c w) as [a w1|e w1]; cbn [final_world] in *.
  - destruct (Hf a w1) as (n2 & Hl2 & Ht2).
    exists (n2 ++ n1)%list. split.
    + rewrite Hl2, Hl1. apply app_assoc.
    + rewrite tally_app. unfold tle, tadd in *. simpl. repeat split; lia.
  - exists n1. split; [exact Hl1|].
    unfold tle, tadd in *. simpl. repeat split; lia.
Qed.

Lemma spends_nothing {A} (c : M A) :
  (forall w, log (final_world (c w)) = log w) -> spends c tzero.
Proof.
  intros H w. exists []. split; [apply H | apply tle_refl].
Qed.

Lemma spends_event {A} (c : M A) (ev : Event) :
  (forall w, log (final_world (c w)) = ev :: log w) -> spends c (tally_of ev).
Proof.
  intros H w. exists [ev]. split; [apply H|].
  simpl. destruct (tally_of ev). unfold tle, tadd. simpl. repeat split; lia.
Qed.

Section Budget.

Context (E : Env).

Lemma spends_sh (cmd : string) : spends (sh E cmd) tzero.
Proof.
  apply (spends_event _ (EvShell cmd)). intros w. unfold sh.
  destruct (check_output E w cmd); reflexivity.
Qed.

Lemma spends_write_file (path content : string) :
  spends (write_file path content) tzero.
Proof. apply (spends_event _ (EvWrite path content)). intros w. reflexivity. Qed.

Lemma spends_read_file (path : string) : spends (read_file path) tzero.
Proof.
  apply (spends_event _ (EvRead path)). intros w. unfold read_file.
  destruct (lookup_file path (files w)); reflexivity.
Qed.

Lemma spends_lift {A} (c : exn + A) : spends (lift c) tzero.
Proof. apply spends_nothing. intros w. unfold lift. destruct c; reflexivity. Qed.

Lemma spends_ret {A} (a : A) : spends (ret a) tzero.
Proof. apply spends_nothing. intros w. reflexivity. Qed.

Lemma spends_sleep (secs : Z) : spends (sleep secs) (mkTally 0 0 0 1).
Proof. apply (spends_event _ (EvSleep secs)). intros w. reflexivity. Qed.

Lemma spends_call_claude (system_text user_text : string) (max_tokens : Z) :
  spends (call_claude E system_text user_text max_tokens) (mkTally 0 1 0 0).
Proof.
  apply (spends_event _
           (EvPost (claude_request E system_text user_text max_tokens))).
  intros w. rewrite call_claude_world. reflexivity.
Qed.

Lemma spends_call_openai_codex (input_text : string) :
  spends (call_openai_codex E input_text) (mkTally 1 0 0 0).
Proof.
  apply (spends_event _ (EvPost (codex_request E input_text))).
  intros w. rewrite codex_world. reflexivity.
Qed.

Lemma spends_apply_patch (diff_text : string) :
  spends (apply_patch E diff_text) (mkTally 0 0 1 0).
Proof.
  intros w. unfold apply_patch, bind, write_file, run_git_apply, ret.
  cbn [final_world log].
  eexists [_; _]. split; [reflexivity|].
  unfold tle. simpl. repeat split; lia.
Qed.

(** Sequencing with an explicit bound for the whole. *)
Lemma spends_seq {A B} (c : M A) (f : A -> M B) (t1 t2 t : Tally) :
  spends c t1 -> (forall a, spends (f a) t2) -> tle (tadd t1 t2) t ->
  spends (bind c f) t.
Proof.
  intros Hc Hf Hle. eapply spends_weaken; [apply spends_bind; eauto | exact Hle].
Qed.

Ltac tally_le := unfold tle, tadd, tzero; simpl; repeat split; lia.

Lemma spends_main_setup : spends (main_setup E) (mkTally 0 1 0 0).
Proof.
  unfold main_setup.
  eapply (spends_seq _ _ _ (mkTally 0 1 0 0));
    [apply spends_read_file | intros pr_req | tally_le].
  eapply (spends_seq _ _ _ (mkTally 0 1 0 0));
    [apply spends_sh | intros status | tally_le].
  eapply (spends_seq _ _ _ (mkTally 0 1 0 0));
    [apply spends_sh | intros repo_head | tally_le].
  eapply (spends_seq _ _ _ tzero);
    [apply spends_call_claude | intros plan_md | tally_le].
  eapply (spends_seq _ _ _ tzero);
    [apply spends_write_file | intros ? | tally_le].
  apply spends_ret.
Qed.

Lemma spends_main_attempt (pr_req plan_md : string) :
  spends (main_attempt E pr_req plan_md) (mkTally 1 1 1 0).
Proof.
  unfold main_attempt.
  eapply (spends_seq _ _ _ (mkTally 0 1 1 0));
    [apply spends_call_openai_codex | intros diff | tally_le].
  destruct (negb (PyStr.startswith diff "diff --git")).
  { eapply (spends_seq _ _ _ tzero);
      [apply spends_write_file | intros ? | tally_le].
    apply spends_ret. }
  eapply (spends_seq _ _ _ (mkTally 0 1 1 0));
    [apply spends_sh | intros ? | tally_le].
  eapply (spends_seq _ _ _ (mkTally 0 1 0 0));
    [apply spends_apply_patch | intros ok | tally_le].
  destruct (negb ok).
  { eapply (spends_seq _ _ _ tzero);
      [apply spends_write_file | intros ? | tally_le].
    apply spends_ret. }
  eapply (spends_seq _ _ _ (mkTally 0 1 0 0));
    [apply spends_sh | intros names | tally_le].
  eapply (spends_seq _ _ _ (mkTally 0 1 0 0));
    [apply spends_sh | intros current_diff | tally_le].
  eapply (spends_seq _ _ _ tzero);
    [apply spends_call_claude | intros verify_text | tally_le].
  eapply (spends_seq _ _ _ tzero);
    [apply spends_write_file | intros ? | tally_le].
  apply spends_ret.
Qed.

Lemma spends_main_iteration (pr_req plan_md : string) (i : Z) :
  spends (main_iteration E pr_req i plan_md) (mkTally 1 1 1 1).
Proof.
  unfold main_iteration.
  eapply (spends_seq _ _ _ (mkTally 0 0 0 1));
    [apply spends_main_attempt | intros [[changed vj]|] | tally_le].
  2:{ eapply spends_weaken; [apply spends_ret | tally_le]. }
  unfold main_decide.
  eapply (spends_seq _ _ _ (mkTally 0 0 0 1));
    [apply spends_lift | intros verdict | tally_le].
  destruct (Py.eq_str verdict "PASS").
  - unfold pass_path.
    eapply (spends_seq _ _ _ tzero);
      [apply spends_write_file | intros ? | tally_le].
    apply spends_ret.
  - unfold nonpass_path.
    eapply (spends_seq _ _ _ (mkTally 0 0 0 1));
      [apply spends_lift | intros required | tally_le].
    eapply (spends_seq _ _ _ (mkTally 0 0 0 1));
      [apply spends_lift | intros xs | tally_le].
    eapply (spends_seq _ _ _ (mkTally 0 0 0 1));
      [apply spends_write_file | intros ? | tally_le].
    eapply (spends_seq _ _ _ tzero);
      [apply spends_sleep | intros ? | tally_le].
    apply spends_ret.
Qed.

Lemma spends_main_loop (pr_req : string) (iters : list Z) :
  forall plan_md,
    spends (main_loop E pr_req iters plan_md)
           (tscale (List.length iters) (mkTally 1 1 1 1)).
Proof.
  induction iters as [|i rest IH]; intros plan_md; cbn [main_loop].
  - eapply spends_weaken; [apply spends_ret | tally_le].
  - eapply (spends_seq _ _ _ (tscale (List.length rest) (mkTally 1 1 1 1)));
      [apply spends_main_iteration | intros [p|] |].
    + apply IH.
    + eapply spends_weaken; [apply spends_ret|].
      unfold tle, tscale, tzero. simpl. repeat split; lia.
    + unfold tle, tadd, tscale. cbn [List.length t_generations t_messages
                                        t_applies t_sleeps].
      repeat split; lia.
Qed.

End Budget.

Lemma range_length (lo hi : Z) : List.length (range lo hi) = Z.to_nat (hi - lo).
Proof. unfold range. now rewrite length_map, length_seq. Qed.

(** X14.  A run, returned or raised, sends at most [MAX_ITERS]
    generation requests and at most one more request to the Messages
    endpoint (the plan, then one review an iteration), runs [git apply]
    at most [MAX_ITERS] times and sleeps at most [MAX_ITERS] times; with
    [MAX_ITERS] zero or negative the bounds are 0, 1, 0 and 0. *)
Theorem run_budget (E : Env) (w : World) :
  exists new,
    log (final_world (main E w)) = (new ++ log w)%list /\
    (t_generations (tally new) <= Z.to_nat (MAX_ITERS E))%nat /\
    (t_messages (tally new) <= 1 + Z.to_nat (MAX_ITERS E))%nat /\
    (t_applies (tally new) <= Z.to_nat (MAX_ITERS E))%nat /\
    (t_sleeps (tally new) <= Z.to_nat (MAX_ITERS E))%nat.
Proof.
  assert (H : spends (main E)
                (tadd (mkTally 0 1 0 0)
                      (tscale (Z.to_nat (MAX_ITERS E)) (mkTally 1 1 1 1)))).
  { unfold main.
    apply spends_bind; [apply spends_main_setup | intros s].
    eapply spends_seq;
      [apply spends_main_loop | intros [last|] | ].
    - apply spends_write_file.
    - apply spends_ret.
    - rewrite range_length.
      replace (MAX_ITERS E + 1 - 1) with (MAX_ITERS E) by lia.
      unfold tle, tadd, tscale, tzero. simpl. repeat split; lia. }
  destruct (H w) as (new & Hlog & Hle). exists new. split; [exact Hlog|].
  unfold tle, tadd, tscale in Hle. simpl in Hle. lia.
Qed.

(** ** The setup *)

(** X15.  Lines 73-88.  A setup that succeeds has read [input.md], run
    [git status --porcelain] and [git rev-parse --short HEAD], sent one
    planning request and written the answer to [plan.md], in this
    order, and has left the tree alone.  The status in the request is
    never empty: when the stripped output of [git status] is empty it
    reads [(clean)]. *)
Theorem main_setup_trace (E : Env) (w0 w1 : World) (pr_req plan_md : string) :
  main_setup E w0 = Ok (pr_req, plan_md) w1 ->
  exists raw_status repo_status repo_head,
    lookup_file "input.md" (files w0) = Some pr_req /\
    check_output E (record (EvRead "input.md") w0) "git status --porcelain" =
      inr raw_status /\
    repo_status = PyStr.or_else (PyStr.strip raw_status) "(clean)" /\
    repo_status <> "" /\
    (PyStr.strip raw_status = "" -> repo_status = "(clean)") /\
    files w1 = ("plan.md", plan_md) :: files w0 /\
    tree w1 = tree w0 /\
    log w1 =
      EvWrite "plan.md" plan_md
      :: EvPost (claude_request E plan_system
                   (plan_user repo_head repo_status pr_req) 1400)
      :: EvShell "git rev-parse --short HEAD"
      :: EvShell "git status --porcelain"
      :: EvRead "input.md"
      :: log w0.
Proof.
  unfold main_setup, bind at 1, read_file.
  destruct (lookup_file "input.md" (files w0)) as [c|]; [|discriminate].
  unfold bind at 1, sh at 1. cbn [files tree log].
  destruct (check_output E _ "git status --porcelain") as [e|out1];
    [discriminate|].
  unfold bind at 1, sh at 1. cbn [files tree log record].
  destruct (check_output E _ "git rev-parse --short HEAD") as [e|out2];
    [discriminate|].
  unfold bind at 1. rewrite call_claude_factor. cbv zeta.
  destruct (requests_post E _ _) as [e|r]; [discriminate|].
  destruct (claude_text E r) as [e|plan]; [discriminate|].
  unfold bind, write_file, ret. cbn [files tree log record shell_effect].
  intros H. injection H as <- <- <-.
  exists out1, (PyStr.or_else (PyStr.strip out1) "(clean)"), (PyStr.strip out2).
  split; [reflexivity|]. split; [reflexivity|]. split; [reflexivity|].
  split; [|split; [|repeat split]].
  - unfold PyStr.or_else. destruct (PyStr.strip out1); discriminate.
  - intros ->. reflexivity.
Qed.

Lemma main_setup_trace_witness :
  exists raw_status repo_status repo_head,
    lookup_file "input.md" (files Scenario.start) = Some request_text /\
    check_output Scenario.env_pass (record (EvRead "input.md") Scenario.start)
      "git status --porcelain" = inr raw_status /\
    repo_status = PyStr.or_else (PyStr.strip raw_status) "(clean)" /\
    repo_status <> "" /\
    (PyStr.strip raw_status = "" -> repo_status = "(clean)") /\
    files w1_pass = ("plan.md", "PLAN") :: files Scenario.start /\
    tree w1_pass = tree Scenario.start /\
    log w1_pass =
      EvWrite "plan.md" "PLAN"
      :: EvPost (claude_request Scenario.env_pass plan_system
                   (plan_user repo_head repo_status request_text) 1400)
      :: EvShell "git rev-parse --short HEAD"
      :: EvShell "git status --porcelain"
      :: EvRead "input.md"
      :: log Scenario.start.
Proof.
  apply (main_setup_trace Scenario.env_pass Scenario.start w1_pass request_text "PLAN").
  vm_compute. reflexivity.
Defined.

(** ** The feedback, bullet by bullet *)

Lemma prefix_app_l (n h b : string) :
  String.prefix n h = true -> String.prefix n (h ++ b) = true.
Proof.
  revert h. induction n as [|x n IH]; intros h H.
  - now destruct (h ++ b).
  - destruct h as [|y h]; simpl in *; [discriminate|].
    destruct (ascii_dec x y); [now apply IH | discriminate].
Qed.

Lemma contains_app_l (hay needle b : string) :
  PyStr.contains hay needle = true -> PyStr.contains (hay ++ b) needle = true.
Proof.
  induction hay as [|x hay IH]; intros H.
  - simpl in H. rewrite orb_false_r in H.
    apply contains_prefix. now apply (prefix_app_l needle "" b).
  - simpl in H. apply orb_true_iff in H. destruct H as [H|H].
    + apply contains_prefix. now apply (prefix_app_l needle (String x hay) b).
    + simpl. rewrite (IH H). apply orb_true_r.
Qed.

Lemma contains_join (sep b : string) (l : list string) :
  In b l -> PyStr.contains (PyStr.join sep l) b = true.
Proof.
  unfold PyStr.join. induction l as [|x l IH]; intros H; [contradiction|].
  destruct l as [|y l].
  - destruct H as [->|[]]. simpl. apply contains_prefix, prefix_refl.
  - change (String.concat sep (x :: y :: l))
      with (x ++ sep ++ String.concat sep (y :: l)).
    destruct H as [->|H].
    + apply contains_prefix, prefix_append.
    + apply contains_skip, contains_skip. now apply IH.
Qed.

(** X16.  Lines 177-180.  For a reviewed verdict that is not PASS and
    whose required changes are a list of strings (or are absent, which
    reads as the empty list), the plan of the next iteration is the old
    plan, a blank line, a rule, a blank line, the heading, and one line
    ["- item"] for each string in order, joined by newlines: with no
    item the plan ends with the heading line.  The [repr] of Python is
    not consulted. *)
Theorem feedback_of_string_list
    (E : Env) (pr_req plan_md changed : string) (i : Z)
    (verify_json verdict : pyval) (items : list string) (w wr : World) :
  main_attempt E pr_req plan_md w = Ok (Some (changed, verify_json)) wr ->
  Py.get verify_json "verdict" PNone = inr verdict ->
  verdict <> PStr "PASS" ->
  Py.get verify_json "required_changes" (PList []) = inr (PList (map PStr items)) ->
  exists w',
    main_iteration E pr_req i plan_md w =
    Ok (Continue
          (plan_md ++ nl ++ nl ++ "---" ++ nl ++ nl ++
           "## Reviewer required changes" ++ nl ++
           PyStr.join nl (map (fun s => "- " ++ s) items)))
       w'.
Proof.
  intros Hatt Hv Hne Hreq.
  destruct (reviewed_nonpass_appends E pr_req plan_md changed i verify_json verdict
              (PList (map PStr items)) (map PStr items) w wr Hatt Hv Hne Hreq
              eq_refl) as [Hit _].
  eexists. rewrite Hit. rewrite map_map. cbn [py_format].
  unfold feedback_section. reflexivity.
Qed.

Lemma feedback_of_string_list_witness :
  exists w',
    main_iteration Scenario.env_one request_text 1 "PLAN" w1_pass =
    Ok (Continue
          ("PLAN" ++ nl ++ nl ++ "---" ++ nl ++ nl ++
           "## Reviewer required changes" ++ nl ++
           PyStr.join nl (map (fun s => "- " ++ s) ["add tests"])))
       w'.
Proof.
  apply (feedback_of_string_list Scenario.env_one request_text "PLAN" "app.py" 1
           (PDict [("verdict", PStr "NONPASS");
                   ("required_changes", PList [PStr "add tests"])])
           (PStr "NONPASS") ["add tests"] w1_pass
           (final_world (main_attempt Scenario.env_one request_text "PLAN" w1_pass))).
  - vm_compute. reflexivity.
  - reflexivity.
  - discriminate.
  - reflexivity.
Defined.

(** X17.  Lines 177-178.  When the required changes of a reviewed
    verdict that is not PASS are one string instead of a list, the loop
    over them runs over its characters: the feedback section gets one
    bullet for each character of the string. *)
Theorem feedback_of_a_string_is_per_character
    (E : Env) (pr_req plan_md changed text : string) (i : Z)
    (verify_json verdict : pyval) (w wr : World) :
  main_attempt E pr_req plan_md w = Ok (Some (changed, verify_json)) wr ->
  Py.get verify_json "verdict" PNone = inr verdict ->
  verdict <> PStr "PASS" ->
  Py.get verify_json "required_changes" (PList []) = inr (PStr text) ->
  let bullets :=
    map (fun c => "- " ++ String c EmptyString) (list_ascii_of_string text) in
  List.length bullets = String.length text /\
  exists w',
    main_iteration E pr_req i plan_md w =
    Ok (Continue (plan_md ++ feedback_section bullets)) w'.
Proof.
  intros Hatt Hv Hne Hreq bullets. split.
  - subst bullets. rewrite length_map.
    clear. induction text as [|a t IH]; simpl; [reflexivity | now rewrite IH].
  - destruct (reviewed_nonpass_appends E pr_req plan_md changed i verify_json verdict
                (PStr text) (Py.chars text) w wr Hatt Hv Hne Hreq eq_refl)
      as [Hit _].
    assert (Hmap : map (fun x => "- " ++ py_format E x) (Py.chars text) = bullets).
    { subst bullets. clear.
      induction text as [|a t IH]; [reflexivity|].
      cbn [Py.chars map list_ascii_of_string py_format]. now rewrite IH. }
    cbv zeta in Hit. rewrite Hmap in Hit. eexists. exact Hit.
Qed.

Lemma feedback_of_a_string_is_per_character_witness :
  exists w',
    main_iteration Faults.env_string_changes request_text 1 "PLAN" w1_pass =
    Ok (Continue ("PLAN" ++ feedback_section ["- f"; "- i"; "- x"])) w'.
Proof.
  apply (feedback_of_a_string_is_per_character Faults.env_string_changes
           request_text "PLAN" "app.py" "fix" 1
           (PDict [("verdict", PStr "NONPASS"); ("required_changes", PStr "fix")])
           (PStr "NONPASS") w1_pass
           (final_world
              (main_attempt Faults.env_string_changes request_text "PLAN" w1_pass))).
  - vm_compute. reflexivity.
  - reflexivity.
  - discriminate.
  - reflexivity.
Defined.

(** X18.  Lines 93-107 after lines 177-180.  The feedback of a reviewed
    iteration that is not PASS reaches the next generation request: the
    loop goes on with the new plan, and the prompt built from it
    contains the old plan and every bullet. *)
Theorem feedback_reaches_next_prompt
    (E : Env) (pr_req plan_md changed : string) (i : Z) (rest : list Z)
    (verify_json verdict required : pyval) (xs : list pyval) (w wr : World) :
  main_attempt E pr_req plan_md w = Ok (Some (changed, verify_json)) wr ->
  Py.get verify_json "verdict" PNone = inr verdict ->
  verdict <> PStr "PASS" ->
  Py.get verify_json "required_changes" (PList []) = inr required ->
  Py.iter required = inr xs ->
  exists plan' w',
    main_loop E pr_req (i :: rest) plan_md w = main_loop E pr_req rest plan' w' /\
    final_world (call_openai_codex E (codex_prompt plan' pr_req) w') =
      record (EvPost (codex_request E (codex_prompt plan' pr_req))) w' /\
    PyStr.contains (codex_prompt plan' pr_req) plan_md = true /\
    forall x, In x xs ->
      PyStr.contains (codex_prompt plan' pr_req) ("- " ++ py_format E x) = true.
Proof.
  intros Hatt Hv Hne Hreq Hiter.
  destruct (reviewed_nonpass_appends E pr_req plan_md changed i verify_json verdict
              required xs w wr Hatt Hv Hne Hreq Hiter) as [Hit _].
  cbv zeta in Hit.
  eexists. eexists. split; [|split; [|split]].
  - cbn [main_loop]. unfold bind at 1. rewrite Hit. reflexivity.
  - apply codex_world.
  - unfold codex_prompt. rewrite !append_assoc.
    do 8 apply contains_skip. apply contains_prefix, prefix_append.
  - intros x Hx. unfold codex_prompt, feedback_section. rewrite !append_assoc.
    do 16 apply contains_skip. apply contains_app_l. apply contains_join.
    apply (in_map (fun x0 => "- " ++ py_format E x0) xs x Hx).
Qed.

Lemma feedback_reaches_next_prompt_witness :
  exists plan' w',
    main_loop Scenario.env_exhaust request_text [1; 2] "PLAN" w1_exhaust =
      main_loop Scenario.env_exhaust request_text [2] plan' w' /\
    final_world
      (call_openai_codex Scenario.env_exhaust (codex_prompt plan' request_text) w') =
      record (EvPost (codex_request Scenario.env_exhaust
                        (codex_prompt plan' request_text))) w' /\
    PyStr.contains (codex_prompt plan' request_text) "PLAN" = true /\
    forall x, In x [PStr "add tests"] ->
      PyStr.contains (codex_prompt plan' request_text)
        ("- " ++ py_format Scenario.env_exhaust x) = true.
Proof.
  apply (feedback_reaches_next_prompt Scenario.env_exhaust request_text "PLAN"
           "app.py" 1 [2]
           (PDict [("verdict", PStr "NONPASS");
                   ("required_changes", PList [PStr "add tests"])])
           (PStr "NONPASS") (PList [PStr "add tests"]) [PStr "add tests"]
           w1_exhaust
           (final_world
              (main_attempt Scenario.env_exhaust request_text "PLAN" w1_exhaust))).
  - vm_compute. reflexivity.
  - reflexivity.
  - discriminate.
  - reflexivity.
  - reflexivity.
Defined.

(** ** The verdict on disk *)

Lemma unreviewed_attempt_file (E : Env) (pr_req plan_md : string) (w w1 : World) :
  main_attempt E pr_req plan_md w = Ok None w1 ->
  exists v older,
    files w1 = ("verify.json", json_dumps E v) :: older /\
    (v = no_diff_verdict \/ v = apply_failed_verdict).
Proof.
  unfold main_attempt, bind at 1.
  destruct (call_openai_codex E (codex_prompt plan_md pr_req) w) as [diff wg|e wg];
    [|discriminate].
  destruct (negb (PyStr.startswith diff "diff --git")).
  { unfold bind, write_file, ret. intros H. injection H as <-.
    exists no_diff_verdict. eexists. split; [reflexivity | now left]. }
  unfold bind at 1.
  destruct (sh E "git reset --hard" wg) as [u w2|e w2]; [|discriminate].
  unfold bind at 1.
  destruct (apply_patch E diff w2) as [ok w3|e w3]; [|discriminate].
  destruct (negb ok).
  { unfold bind, write_file, ret. intros H. injection H as <-.
    exists apply_failed_verdict. eexists. split; [reflexivity | now right]. }
  unfold bind at 1.
  destruct (sh E "git diff --name-only" w3) as [names w4|e w4]; [|discriminate].
  unfold bind at 1.
  destruct (sh E "git diff" w4) as [cd w5|e w5]; [|discriminate].
  unfold bind at 1.
  destruct (call_claude E _ _ _ w5) as [vt w6|e w6]; [|discriminate].
  unfold bind, write_file, ret. discriminate.
Qed.

Lemma reviewed_attempt_file (E : Env) (pr_req plan_md changed : string)
    (verify_json : pyval) (w wr : World) :
  main_attempt E pr_req plan_md w = Ok (Some (changed, verify_json)) wr ->
  exists older, files wr = ("verify.json", json_dumps E verify_json) :: older.
Proof.
  unfold main_attempt, bind at 1.
  destruct (call_openai_codex E (codex_prompt plan_md pr_req) w) as [diff wg|e wg];
    [|discriminate].
  destruct (negb (PyStr.startswith diff "diff --git")).
  { unfold bind, write_file, ret. discriminate. }
  unfold bind at 1.
  destruct (sh E "git reset --hard" wg) as [u w2|e w2]; [|discriminate].
  unfold bind at 1.
  destruct (apply_patch E diff w2) as [ok w3|e w3]; [|discriminate].
  destruct (negb ok).
  { unfold bind, write_file, ret. discriminate. }
  unfold bind at 1.
  destruct (sh E "git diff --name-only" w3) as [names w4|e w4]; [|discriminate].
  unfold bind at 1.
  destruct (sh E "git diff" w4) as [cd w5|e w5]; [|discriminate].
  unfold bind at 1.
  destruct (call_claude E _ _ _ w5) as [vt w6|e w6]; [|discriminate].
  unfold bind, write_file, ret. intros H. injection H as _ <- <-.
  eexists. reflexivity.
Qed.

Lemma main_iteration_verdict_file (E : Env) (pr_req plan_md plan' : string) (i : Z)
    (w w' : World) :
  main_iteration E pr_req i plan_md w = Ok (Continue plan') w' ->
  exists v, lookup_file "verify.json" (files w') = Some (json_dumps E v).
Proof.
  unfold main_iteration, bind at 1. intros H.
  destruct (main_attempt E pr_req plan_md w) as [[[changed vj]|] wr|e wr] eqn:Hatt;
    [| |discriminate].
  - destruct (reviewed_attempt_file E pr_req plan_md changed vj w wr Hatt)
      as (older & Hfiles).
    unfold main_decide, bind at 1, lift at 1 in H.
    destruct (Py.get vj "verdict" PNone) as [e|verdict]; [discriminate|].
    destruct (Py.eq_str verdict "PASS"); [discriminate|].
    unfold nonpass_path, bind, lift, write_file, sleep, ret, record in H.
    destruct (Py.get vj "required_changes" (PList [])) as [e|required];
      [discriminate|].
    destruct (Py.iter required) as [e|xs]; [discriminate|].
    injection H as _ <-. cbn [files]. exists vj.
    rewrite lookup_file_other by discriminate. rewrite Hfiles.
    apply lookup_file_same.
  - destruct (unreviewed_attempt_file E pr_req plan_md w wr Hatt)
      as (v & older & Hfiles & _).
    unfold ret in H. injection H as _ <-. exists v. rewrite Hfiles.
    apply lookup_file_same.
Qed.

(** X19.  Every iteration the loop runs through leaves a verdict in
    [verify.json]: after one or more such iterations the file holds the
    [json.dumps] of a verdict, so the pointer to it in the exhaustion
    report is not dangling once an iteration has run. *)
Theorem verdict_file_after_iterations
    (E : Env) (pr_req : string) (iters : list Z) (plan_md plan' : string)
    (w w' : World) :
  iters <> [] ->
  run_iters E pr_req iters plan_md w = Some (plan', w') ->
  exists v, lookup_file "verify.json" (files w') = Some (json_dumps E v).
Proof.
  revert plan_md w. induction iters as [|i rest IH]; intros plan_md w Hne H;
    [now elim Hne|].
  simpl in H.
  destruct (main_iteration E pr_req i plan_md w) as [[p1|] w1|e w1] eqn:Hit;
    try discriminate.
  destruct rest as [|j rest].
  - simpl in H. injection H as <- <-.
    apply (main_iteration_verdict_file E pr_req plan_md p1 i w w1 Hit).
  - apply (IH p1 w1); [discriminate | exact H].
Qed.

Lemma verdict_file_after_iterations_witness :
  exists v,
    lookup_file "verify.json" (files world_after_two) =
    Some (json_dumps Scenario.env_exhaust v).
Proof.
  apply (verdict_file_after_iterations Scenario.env_exhaust request_text [1; 2]
           "PLAN" plan_after_two w1_exhaust world_after_two).
  - discriminate.
  - vm_compute. reflexivity.
Defined.

(** ** A setup that fails *)

(** X21.  A setup that fails ends the run before the loop: [main]
    raises the exception of the setup and does nothing after it, so no
    generation request, no apply and no sleep has happened. *)
Theorem failed_setup_ends_the_run (E : Env) (w w' : World) (e : exn) :
  main_setup E w = Raise e w' ->
  main E w = Raise e w' /\
  exists new,
    log w' = (new ++ log w)%list /\
    t_generations (tally new) = 0%nat /\
    t_applies (tally new) = 0%nat /\
    t_sleeps (tally new) = 0%nat.
Proof.
  intros Hsetup. split.
  { unfold main, bind at 1. rewrite Hsetup. reflexivity. }
  destruct (spends_main_setup E w) as (new & Hlog & Hle).
  rewrite Hsetup in Hlog. cbn [final_world] in Hlog.
  exists new. split; [exact Hlog|].
  unfold tle in Hle. simpl in Hle. lia.
Qed.

Lemma failed_setup_ends_the_run_witness :
  main Scenario.env_plan_down Scenario.start =
  Raise RequestException
        (final_world (main_setup Scenario.env_plan_down Scenario.start)).
Proof.
  apply (failed_setup_ends_the_run Scenario.env_plan_down Scenario.start
           (final_world (main_setup Scenario.env_plan_down Scenario.start))
           RequestException).
  vm_compute. reflexivity.
Defined.

(** ** The reset and the apply *)

(** X22.  Lines 115-116 with [apply_patch].  From any world, whether
    the run returns or raises: every [git apply] of the run comes
    directly after [git reset --hard] and the write of [patch.diff], and
    the patch it applies is the one just written. *)
Theorem every_apply_follows_the_reset (E : Env) (w : World) :
  exists new,
    log (final_world (main E w)) = (new ++ log w)%list /\
    resets_before_applies new.
Proof.
  pose proof (main_spec E w) as Hm.
  destruct (main E w) as [u w'|e w']; simpl.
  - destruct Hm as (pr_req & plan0 & w1 & _ & [Hpass|Hexh]).
    + destruct Hpass as (N & pN & wN & ch & vj & wr & _ & _ & _ & _ & Hext & ->).
      destruct Hext as (new & Hlog & Hnew).
      exists (EvWrite "report.md" (pass_report N pN ch) :: new). split.
      * simpl. now rewrite Hlog.
      * simpl. now apply loop_log_resets.
    + destruct Hexh as (pF & wF & _ & Hext & ->).
      destruct Hext as (new & Hlog & Hnew).
      exists (EvWrite "report.md" (exhausted_report (MAX_ITERS E) pF) :: new). split.
      * simpl. now rewrite Hlog.
      * simpl. now apply loop_log_resets.
  - destruct Hm as (new & Hlog & Hnew). exists new. split; [exact Hlog|].
    now apply loop_log_resets.
Qed.
